(** * pymhihvac: the session client of the MHI HVAC local API (api.py)

    A shallow embedding of [api.py]: the exception classes, the
    [reauth_retry] decorator, the [MHIHVACLocalAPI] client with its
    transport session, and the three operations that talk to the device
    (login, read state, send command).

    Python coroutines are modelled as computations in a state-and-exception
    monad: [await] is sequencing, [raise] is the exceptional outcome, and
    [try ... except] is [try_except].  The event loop, wall-clock time and
    cancellation are outside the model: a timeout appears only as one of the
    ways the transport may fail. *)

From Stdlib Require Import ZArith String Ascii DecimalString.
From stdpp Require Import base option list gmap strings.

Local Open Scope Z_scope.
Local Open Scope string_scope.

(** ** Exceptions *)

(** The five exception classes of the module, and [OtherException] for any
    class defined elsewhere (builtins, aiohttp, json), named by its class
    name.  All five derive directly from [Exception], so an [except] clause
    for one of them catches exactly that class. *)
Inductive exn_class : Type :=
  | LoginFailedException
  | NoSessionCookieException
  | ApiCallFailedException
  | SessionExpiredException
  | SessionNotInitializedException
  | OtherException (name : string).

#[global] Instance exn_class_eq_dec : EqDecision exn_class.
Proof. solve_decision. Defined.

(** An exception instance: its class, its positional arguments ([e.args])
    and its explicit cause ([raise ... from e] sets [__cause__]). *)
#[warnings="-register-all"]
Inductive exn : Type :=
  | Exn (cls : exn_class) (args : list string) (cause : option exn).

Definition exn_cls (e : exn) : exn_class := let 'Exn c _ _ := e in c.
Definition exn_args (e : exn) : list string := let 'Exn _ a _ := e in a.
Definition exn_cause (e : exn) : option exn := let 'Exn _ _ c := e in c.

(** [isinstance(e, SessionExpiredException)]. *)
Definition is_session_expired (e : exn) : bool :=
  bool_decide (exn_cls e = SessionExpiredException).

(** Classes from outside the module that the source names or provokes. *)
Definition ClientError : exn_class := OtherException "aiohttp.ClientError".
Definition TimeoutError : exn_class := OtherException "TimeoutError".
Definition JSONDecodeError : exn_class := OtherException "json.JSONDecodeError".
Definition IndexError : exn_class := OtherException "IndexError".
Definition KeyError : exn_class := OtherException "KeyError".
Definition TypeError : exn_class := OtherException "TypeError".
Definition AttributeError : exn_class := OtherException "AttributeError".
Definition RuntimeError : exn_class := OtherException "RuntimeError".

(** [f"{n}"] for an [int]. *)
Definition fmt_int (n : Z) : string := NilZero.string_of_int (Z.to_int n).

(** ** The monad of coroutines: state and exceptions *)

Inductive outcome (T : Type) : Type :=
  | Returns (v : T)
  | Raises (e : exn).
Arguments Returns {T} v.
Arguments Raises {T} e.

Definition M (St T : Type) : Type := St -> outcome T * St.

Definition ret {St T} (v : T) : M St T := fun s => (Returns v, s).
Definition raise {St T} (e : exn) : M St T := fun s => (Raises e, s).
Definition bind {St A B} (m : M St A) (k : A -> M St B) : M St B :=
  fun s =>
    match m s with
    | (Returns a, s') => k a s'
    | (Raises e, s') => (Raises e, s')
    end.
Definition get {St} : M St St := fun s => (Returns s, s).
Definition modify {St} (f : St -> St) : M St unit := fun s => (Returns tt, f s).

(** [try: body except <classes matched by catches> as e: handler e]. *)
Definition try_except {St T} (body : M St T) (catches : exn -> bool)
    (handler : exn -> M St T) : M St T :=
  fun s =>
    match body s with
    | (Returns v, s') => (Returns v, s')
    | (Raises e, s') => if catches e then handler e s' else (Raises e, s')
    end.

Declare Scope coro_scope.
Delimit Scope coro_scope with coro.
Notation "'let*' x := m 'in' k" := (bind m (fun x => k))
  (at level 10, x name, m at level 100, k at level 200) : coro_scope.
Notation "m ;; k" := (bind m (fun _ => k))
  (at level 100, right associativity) : coro_scope.
Local Open Scope coro_scope.

(** [range(n)], for a Python [int] n: empty when n <= 0. *)
Definition py_range (n : Z) : list Z := Z.of_nat <$> seq 0 (Z.to_nat n).

(** ** The retry coordinator: [reauth_retry] (api.py, lines 51-79) *)

Section reauth_retry.
(** The decorator touches [self] in two ways only: it calls
    [self._async_login()] and it assigns [self._session_cookie].  It is
    modelled over any state that offers the two. *)
Context {St : Type}.
Variable _async_login : M St string.
Variable set_session_cookie : string -> St -> St.

Definition max_retries_message (max_retries : Z) : string :=
  "Max re-authentication attempts (" ++ fmt_int max_retries ++ ") reached.".

Section wrapper.
Context {T : Type}.
Variable max_retries : Z.
Variable func : M St T.

(** The handler of [except SessionExpiredException as e], in the
    iteration whose loop variable is [attempt]; [continue_loop] is the
    rest of the [for] loop. *)
Definition on_session_expired (attempt : Z) (continue_loop : M St T)
    (e : exn) : M St T :=
  if bool_decide (attempt < max_retries) then
    let* cookie := _async_login in
    modify (set_session_cookie cookie) ;;
    continue_loop
  else
    raise (Exn ApiCallFailedException
               [max_retries_message max_retries] (Some e)).

(** [for attempt in attempts: try: return await func(...) except ...],
    followed by the [raise] after the loop (line 73). *)
Fixpoint wrapper_loop (attempts : list Z) : M St T :=
  match attempts with
  | [] =>
      raise (Exn ApiCallFailedException
                 [max_retries_message max_retries] None)
  | attempt :: rest =>
      try_except func is_session_expired
        (on_session_expired attempt (wrapper_loop rest))
  end.

Definition wrapper : M St T := wrapper_loop (py_range (max_retries + 1)).
End wrapper.

(** [reauth_retry(max_retries)(func)]. *)
Definition reauth_retry {T} (max_retries : Z) (func : M St T) : M St T :=
  wrapper max_retries func.
End reauth_retry.

(** ** Python values and strings *)

(** The values [json.loads] produces and [json.dumps] accepts.  A [dict]
    with [str] keys is a finite map; Python compares dicts without regard
    to insertion order, and so does equality of [gmap].  A [float] is
    carried by its literal: no operation of the module looks inside one. *)
#[warnings="-register-all"]
Inductive pyval : Type :=
  | PyNone
  | PyBool (b : bool)
  | PyInt (n : Z)
  | PyFloat (literal : string)
  | PyStr (s : string)
  | PyList (l : list pyval)
  | PyDict (d : gmap string pyval).

(** [type(v).__name__]. *)
Definition type_name (v : pyval) : string :=
  match v with
  | PyNone => "NoneType"
  | PyBool _ => "bool"
  | PyInt _ => "int"
  | PyFloat _ => "float"
  | PyStr _ => "str"
  | PyList _ => "list"
  | PyDict _ => "dict"
  end.

(** [isinstance(v, dict)]. *)
Definition is_dict (v : pyval) : bool :=
  match v with PyDict _ => true | _ => false end.

(** [v == s] for a [str] literal [s]: among the values above only an equal
    [str] compares equal to a [str]. *)
Definition py_eq_str (v : pyval) (s : string) : bool :=
  match v with PyStr t => bool_decide (t = s) | _ => false end.

(** [v.get(key, default)]: only a [dict] has the method. *)
Definition py_get {St} (v : pyval) (key : string) (default : pyval)
    : M St pyval :=
  match v with
  | PyDict d => ret (from_option id default (d !! key))
  | _ =>
      raise (Exn AttributeError
               ["'" ++ type_name v ++ "' object has no attribute 'get'"] None)
  end.

(** [v[0]].  A [dict] from JSON has [str] keys only, so the [int] key 0 is
    never found. *)
Definition py_getitem_0 {St} (v : pyval) : M St pyval :=
  match v with
  | PyList l =>
      match l !! 0%nat with
      | Some x => ret x
      | None => raise (Exn IndexError ["list index out of range"] None)
      end
  | PyStr s =>
      match s with
      | String a _ => ret (PyStr (String a ""))
      | "" => raise (Exn IndexError ["string index out of range"] None)
      end
  | PyDict _ => raise (Exn KeyError ["0"] None)
  | _ =>
      raise (Exn TypeError
               ["'" ++ type_name v ++ "' object is not subscriptable"] None)
  end.

(** A [string] stands for a Python [str] whose code points are below 256,
    one character each.  [c.isspace()] on that range. *)
Definition py_isspace (c : ascii) : bool :=
  let n := N_of_ascii c in
  ((9 <=? n) && (n <=? 13) || (28 <=? n) && (n <=? 32)
   || (n =? 133) || (n =? 160))%N.

Fixpoint py_lstrip (s : string) : string :=
  match s with
  | "" => ""
  | String c s' => if py_isspace c then py_lstrip s' else s
  end.

(** [s.strip()]. *)
Definition py_strip (s : string) : string :=
  String.rev (py_lstrip (String.rev (py_lstrip s))).

(** Every character of [s] is white space; the empty string included. *)
Fixpoint whitespace_only (s : string) : bool :=
  match s with
  | "" => true
  | String c s' => py_isspace c && whitespace_only s'
  end.

(** Truth value of a [str]. *)
Definition str_truthy (s : string) : bool :=
  match s with "" => false | _ => true end.

(** Truth value of a [str | None]. *)
Definition opt_str_truthy (o : option string) : bool :=
  match o with Some s => str_truthy s | None => false end.

(** ** The transport: [aiohttp.ClientSession] *)

(** What [ClientSession.post] is called with. *)
Inductive request_data : Type :=
  | FormFields (fields : gmap string string)
  | RawBody (body : string).

Record request : Type := Request {
  req_url : string;
  req_data : request_data;
  req_headers : gmap string string;
  req_allow_redirects : bool
}.

(** What the module reads of a response: [resp.status],
    [resp.headers.get(name)] and [await resp.text()]. *)
Record response : Type := Response {
  resp_status : Z;
  resp_headers_get : string -> option string;
  resp_text : string
}.

(** The transport either delivers a response or raises an exception of a
    class of its own (a [ClientError], the [TimeoutError] of
    [asyncio.timeout(10)], ...), named by its class name; a failure while
    the body is read counts as the second. *)
Inductive reply : Type :=
  | Reply (resp : response)
  | TransportFailure (class_name : string) (args : list string).

(** A [ClientSession] object lives on the heap; the client holds a
    reference to it, and so may its external owner. *)
Definition session_ref : Type := nat.

Definition HTTP_HEADERS : gmap string string :=
  {[ "Content-Type" := "application/x-www-form-urlencoded";
     "Accept" := "application/json";
     "User-Agent" := "pymhihvac" ]}.

(** The double-quote character, and the literal request body of the read
    operation: ={QGetReqGroupDataQ:{QFloorNoQ:[Q1Q]}} with Q the quote. *)
Definition dquote : string := String "034"%char "".
Definition GET_REQ_GROUP_DATA : string :=
  "={" ++ dquote ++ "GetReqGroupData" ++ dquote ++ ":{" ++ dquote ++ "FloorNo"
  ++ dquote ++ ":[" ++ dquote ++ "1" ++ dquote ++ "]}}".

(** ** The client: [MHIHVACLocalAPI] *)

Record MHIHVACLocalAPI : Type := Client {
  _username : string;
  _password : string;
  _api_login_url : string;
  _api_url : string;
  _session : option session_ref;
  _session_cookie : option string;
  _session_created_internally : bool
}.

(** The state a method runs in: the client object [self], the
    [ClientSession] objects on the heap (each mapped to its [closed] flag)
    and the requests that went out to the network, oldest first. *)
Record state : Type := State {
  self : MHIHVACLocalAPI;
  sessions : gmap session_ref bool;
  sent : list request
}.

Definition set_self (f : MHIHVACLocalAPI -> MHIHVACLocalAPI) (st : state) : state :=
  State (f (self st)) (sessions st) (sent st).

(** The request [req] goes out. *)
Definition record_sent (req : request) (st : state) : state :=
  State (self st) (sessions st) (sent st ++ [req]).

(** [self._session_cookie = cookie]. *)
Definition assign_session_cookie (cookie : string) : state -> state :=
  set_self (fun c =>
    Client (_username c) (_password c) (_api_login_url c) (_api_url c)
           (_session c) (Some cookie) (_session_created_internally c)).

(** [self._session = None]. *)
Definition clear_session : state -> state :=
  set_self (fun c =>
    Client (_username c) (_password c) (_api_login_url c) (_api_url c)
           None (_session_cookie c) (_session_created_internally c)).

(** [MHIHVACLocalAPI.__init__] (lines 85-117), run on a heap [heap] with
    the requests [log] sent so far.  [aiohttp.ClientSession()] allocates a
    new, open session. *)
Definition __init__ (host username password : string)
    (session : option session_ref)
    (heap : gmap session_ref bool) (log : list request) : state :=
  let api_login_url := "http://" ++ host ++ "/login.asp" in
  let api_url := "http://" ++ host ++ "/json/group_list_json.asp" in
  match session with
  | None =>
      let new_session := fresh (dom heap) in
      State (Client username password api_login_url api_url
                    (Some new_session) None true)
            (<[new_session := false]> heap) log
  | Some _ =>
      State (Client username password api_login_url api_url
                    session None false)
            heap log
  end.

(** The [session_cookie] property. *)
Definition session_cookie (st : state) : option string :=
  _session_cookie (self st).

(** [await session.close()]. *)
Definition ClientSession_close (session : session_ref) : M state unit :=
  modify (fun st => State (self st) (<[session := true]> (sessions st)) (sent st)).

(** [close_session] (lines 124-130). *)
Definition close_session : M state unit :=
  let* st := get in
  match _session (self st) with
  | Some session =>
      if _session_created_internally (self st) then
        ClientSession_close session ;;
        modify clear_session
      else ret tt
  | None => ret tt
  end.

(** ** The operations that talk to the device *)

Section device.
(** The collaborators the module does not implement: the device behind
    the network, which answers a request in view of the requests it has
    seen before, and the JSON codec ([None]: [json.loads] raises
    [JSONDecodeError]). *)
Variable network : list request -> request -> reply.
Variable json_loads : string -> option pyval.
Variable json_dumps : pyval -> string.

(** [async with session.post(url, data=..., headers=...) as resp], with
    the body read: a closed session (or a reference to no session at all)
    refuses the request before anything is sent. *)
Definition ClientSession_post (session : session_ref) (req : request)
    : M state response :=
  fun st =>
    match sessions st !! session with
    | Some false =>
        let st' := record_sent req st in
        match network (sent st) req with
        | Reply resp => (Returns resp, st')
        | TransportFailure cls args =>
            (Raises (Exn (OtherException cls) args None), st')
        end
    | _ => (Raises (Exn RuntimeError ["Session is closed"] None), st)
    end.

(** [self._session.post(...)]. *)
Definition self_session_post (req : request) : M state response :=
  let* st := get in
  match _session (self st) with
  | Some session => ClientSession_post session req
  | None =>
      raise (Exn AttributeError
               ["'NoneType' object has no attribute 'post'"] None)
  end.

Definition session_not_initialized : exn :=
  Exn SessionNotInitializedException ["Session is not initialized"] None.

(** [if not self._session: raise SessionNotInitializedException(...)]. *)
Definition require_session : M state unit :=
  let* st := get in
  match _session (self st) with
  | Some _ => ret tt
  | None => raise session_not_initialized
  end.

(** [isinstance(e, classes)] for classes from outside the module.  The
    handlers below only log and re-raise. *)
Definition exn_in (classes : list exn_class) (e : exn) : bool :=
  bool_decide (exn_cls e ∈ classes).

(** [json.loads(text)].  Of the exception the codec raises only the class
    is modelled: the message that [json.loads] puts in [e.args] is left
    out, and statements about it speak of the class. *)
Definition json_loads_or_raise (text : string) : M state pyval :=
  match json_loads text with
  | Some v => ret v
  | None => raise (Exn JSONDecodeError [] None)
  end.

(** The request [_async_login] builds (lines 232-233, 238-241): the
    credentials as form fields, the fixed headers, redirects disabled. *)
Definition login_request (c : MHIHVACLocalAPI) : request :=
  let headers := HTTP_HEADERS in
  let data : gmap string string :=
    {[ "Id" := _username c; "Password" := _password c ]} in
  Request (_api_login_url c) (FormFields data) headers false.

Definition no_session_cookie : exn :=
  Exn NoSessionCookieException ["Login did not return a session cookie"] None.

(** [_async_login] (lines 225-257). *)
Definition _async_login : M state string :=
  require_session ;;
  let* st := get in
  try_except
    (let* resp := self_session_post (login_request (self st)) in
     if bool_decide (resp_status resp ≠ 302) then
       raise (Exn LoginFailedException
                ["Login failed with status " ++ fmt_int (resp_status resp)]
                None)
     else
       let cookie := resp_headers_get resp "Set-Cookie" in
       if negb (opt_str_truthy cookie) then raise no_session_cookie
       else ret (default "" cookie))
    (exn_in [ClientError; TimeoutError])
    (fun e => raise e).

(** [async_login] (lines 210-223). *)
Definition async_login : M state string := _async_login.

(** The request [async_get_raw_data] builds (lines 139-141, 144-146);
    [self._session_cookie] is a non-empty [str] when it is built. *)
Definition read_request (c : MHIHVACLocalAPI) : request :=
  let headers := <["Cookie" := default "" (_session_cookie c)]> HTTP_HEADERS in
  let payload := GET_REQ_GROUP_DATA in
  Request (_api_url c) (RawBody payload) headers true.

(** The body of [async_get_raw_data] (lines 133-158), before the decorator
    is applied. *)
Definition async_get_raw_data_func : M state pyval :=
  require_session ;;
  let* st := get in
  (if negb (opt_str_truthy (_session_cookie (self st))) then
     let* cookie := async_login in
     modify (assign_session_cookie cookie)
   else ret tt) ;;
  let* st := get in
  try_except
    (let* resp := self_session_post (read_request (self st)) in
     let* data := json_loads_or_raise (resp_text resp) in
     let* group_data := py_get data "GetResGroupData" (PyDict ∅) in
     let* floors := py_get group_data "FloorData" (PyList [PyDict ∅]) in
     let* floor_data := py_getitem_0 floors in
     let* floor_no := py_get floor_data "FloorNo" PyNone in
     if py_eq_str floor_no "-1" then
       raise (Exn SessionExpiredException [] None)
     else
       py_get floor_data "GroupData" (PyDict ∅))
    (exn_in [ClientError; TimeoutError; JSONDecodeError])
    (fun e => raise e).

(** The request [_async_send_command] builds (lines 184-187, 191-195). *)
Definition send_request (c : MHIHVACLocalAPI) (payload : pyval) : request :=
  let headers := HTTP_HEADERS in
  let data := "=" ++ json_dumps payload in
  let headers :=
    if opt_str_truthy (_session_cookie c)
    then <["Cookie" := default "" (_session_cookie c)]> headers
    else headers in
  Request (_api_url c) (RawBody data) headers true.

Definition not_a_dictionary : pyval :=
  PyDict {[ "_async_send_command" := PyStr "Payload is not a dictionary" ]}.

(** The body of [_async_send_command] (lines 177-208), before the
    decorator is applied.  The [return resp_text] of line 205 follows a
    block that always returns or raises, and is never reached. *)
Definition _async_send_command_func (payload : pyval) : M state pyval :=
  require_session ;;
  if negb (is_dict payload) then ret not_a_dictionary
  else
    let* st := get in
    try_except
      (let* resp := self_session_post (send_request (self st) payload) in
       if bool_decide (resp_status resp ≠ 200) then
         raise (Exn ApiCallFailedException
                  ["Command failed with HTTP " ++ fmt_int (resp_status resp) ++ "."]
                  None)
       else if negb (str_truthy (py_strip (resp_text resp))) then
         raise (Exn SessionExpiredException [] None)
       else
         json_loads_or_raise (resp_text resp))
      (exn_in [ClientError; TimeoutError])
      (fun e => raise e).

(** [@reauth_retry()]: the default [max_retries] is 3. *)
Definition async_get_raw_data : M state pyval :=
  reauth_retry _async_login assign_session_cookie 3 async_get_raw_data_func.

Definition _async_send_command (payload : pyval) : M state pyval :=
  reauth_retry _async_login assign_session_cookie 3
    (_async_send_command_func payload).

(** [async_set_group_property] (lines 160-167). *)
Definition async_set_group_property (group_no : string)
    (properties : gmap string pyval) : M state pyval :=
  let payload := properties in
  let payload :=
    match payload !! "GroupNo" with
    | Some _ => payload
    | None => <["GroupNo" := PyStr group_no]> payload
    end in
  let payload : gmap string pyval := {[ "SetReqChangeGroup" := PyDict payload ]} in
  _async_send_command (PyDict payload).

(** [async_set_all_property] (lines 169-174). *)
Definition async_set_all_property (properties : gmap string pyval)
    : M state pyval :=
  let payload : gmap string pyval := {[ "SetReqChangeAll" := PyDict properties ]} in
  _async_send_command (PyDict payload).
End device.

(** ** Test doubles

    The stand-ins the unit tests use ([AsyncMock] with a [call_count]), as
    computations over a state that counts the calls. *)

Record mock : Type := Mock {
  func_calls : nat;
  login_calls : nat;
  stored_cookie : option string
}.

(** A wrapped operation that raises [SessionExpiredException()] on each of
    its first [failures] calls and returns [value] afterwards. *)
Definition mock_func (failures : nat) (value : string) : M mock string :=
  fun m =>
    let m' := Mock (S (func_calls m)) (login_calls m) (stored_cookie m) in
    if bool_decide (func_calls m < failures)%nat
    then (Raises (Exn SessionExpiredException [] None), m')
    else (Returns value, m').

(** A wrapped operation that raises [SessionExpiredException()] on every
    call. *)
Definition mock_func_expired : M mock string :=
  fun m =>
    (Raises (Exn SessionExpiredException [] None),
     Mock (S (func_calls m)) (login_calls m) (stored_cookie m)).

(** A wrapped operation that raises [SessionExpiredException()] on each of
    its first [failures] calls and a [TimeoutError] afterwards. *)
Definition mock_func_then_timeout (failures : nat) : M mock string :=
  fun m =>
    let m' := Mock (S (func_calls m)) (login_calls m) (stored_cookie m) in
    if bool_decide (func_calls m < failures)%nat
    then (Raises (Exn SessionExpiredException [] None), m')
    else (Raises (Exn TimeoutError [] None), m').

(** A wrapped operation that raises a [TimeoutError] on every call. *)
Definition mock_func_timeout : M mock string :=
  fun m =>
    (Raises (Exn TimeoutError [] None),
     Mock (S (func_calls m)) (login_calls m) (stored_cookie m)).

(** A login that succeeds on every call. *)
Definition mock_login : M mock string :=
  fun m =>
    (Returns "session=123",
     Mock (func_calls m) (S (login_calls m)) (stored_cookie m)).

Definition mock_set_cookie (cookie : string) (m : mock) : mock :=
  Mock (func_calls m) (login_calls m) (Some cookie).

(** A device that gives the same reply to every request, and one that
    accepts every login (302 with a cookie) and gives [data_reply] to every
    other request. *)
Definition always (r : reply) : list request -> request -> reply :=
  fun _ _ => r.

Definition set_cookie_header (cookie : option string) : string -> option string :=
  fun name => if bool_decide (name = "Set-Cookie") then cookie else None.

Definition no_headers : string -> option string := fun _ => None.

Definition login_ok : response :=
  Response 302 (set_cookie_header (Some "session=123")) "".

Definition device (data_reply : reply) : list request -> request -> reply :=
  fun _ req =>
    if req_allow_redirects req then data_reply else Reply login_ok.

(** A codec that knows three texts: a read-state body for floor 1 with
    group data (the body of [test_get_raw_data_success]), a read-state body
    whose [FloorData] is the empty list, and the body of
    [test_send_command_success]. *)
Definition quoted (s : string) : string := dquote ++ s ++ dquote.

Definition floor_1_text : string :=
  "{" ++ quoted "GetResGroupData" ++ ": {" ++ quoted "FloorData" ++ ": [{"
  ++ quoted "FloorNo" ++ ": " ++ quoted "1" ++ ", " ++ quoted "GroupData"
  ++ ": {" ++ quoted "test" ++ ": " ++ quoted "data" ++ "}}]}}".

Definition floor_1_value : pyval :=
  PyDict {[ "GetResGroupData" :=
    PyDict {[ "FloorData" :=
      PyList [PyDict {[ "FloorNo" := PyStr "1";
                        "GroupData" := PyDict {[ "test" := PyStr "data" ]} ]}] ]} ]}.

Definition no_floors_text : string :=
  "{" ++ quoted "GetResGroupData" ++ ": {" ++ quoted "FloorData" ++ ": []}}".

Definition no_floors_value : pyval :=
  PyDict {[ "GetResGroupData" := PyDict {[ "FloorData" := PyList [] ]} ]}.

Definition success_text : string := "{" ++ quoted "success" ++ ": true}".

Definition success_value : pyval := PyDict {[ "success" := PyBool true ]}.

Definition test_loads (text : string) : option pyval :=
  if bool_decide (text = floor_1_text) then Some floor_1_value
  else if bool_decide (text = no_floors_text) then Some no_floors_value
  else if bool_decide (text = success_text) then Some success_value
  else None.

Definition test_dumps (v : pyval) : string := "{}".

(** A client that made its own session, a client that was given the
    session 7 of somebody else, and each of them holding a cookie. *)
Definition own_client : state :=
  __init__ "testhost" "testuser" "testpass" None ∅ [].

Definition guest_client : state :=
  __init__ "testhost" "testuser" "testpass" (Some 7%nat) {[ 7%nat := false ]} [].

Definition logged_in (st : state) : state :=
  assign_session_cookie "valid_cookie" st.

(** ** Vocabulary of the statements *)

(** The state in which [async_get_raw_data] posts its request when it is
    called in [st]: [st] itself when a cookie is held, and otherwise the
    state after a successful [async_login], with the new cookie stored. *)
Inductive ready_to_read (network : list request -> request -> reply)
    (st : state) : state -> Prop :=
  | cookie_held :
      opt_str_truthy (_session_cookie (self st)) = true ->
      ready_to_read network st st
  | cookie_fetched cookie st1 :
      opt_str_truthy (_session_cookie (self st)) = false ->
      async_login network st = (Returns cookie, st1) ->
      ready_to_read network st (assign_session_cookie cookie st1).

(** Two client objects that differ at most in [_session_cookie]. *)
Definition same_identity (c c' : MHIHVACLocalAPI) : Prop :=
  _username c' = _username c
  /\ _password c' = _password c
  /\ _api_login_url c' = _api_login_url c
  /\ _api_url c' = _api_url c
  /\ _session c' = _session c
  /\ _session_created_internally c' = _session_created_internally c.

(** What an operation that only talks to the device may do to the state:
    store another cookie and send further requests. *)
Definition only_talks (st st' : state) : Prop :=
  same_identity (self st) (self st')
  /\ sessions st' = sessions st
  /\ sent st `prefix_of` sent st'.

(** A device whose data endpoint answers with an empty body until it has
    seen a login, and with [data_reply] from then on; it accepts every
    login. *)
Definition seen_login (log : list request) : bool :=
  existsb (fun req => negb (req_allow_redirects req)) log.

Definition stale_device (data_reply : reply) : list request -> request -> reply :=
  fun log req =>
    if req_allow_redirects req then
      if seen_login log then data_reply
      else Reply (Response 200 no_headers "")
    else Reply login_ok.

(** A computation keeps the relation [R] when [R] relates the state it
    starts in to the state it ends in, whatever its outcome. *)
Definition keeps {St T : Type} (R : St -> St -> Prop) (m : M St T) : Prop :=
  forall s o s', m s = (o, s') -> R s s'.

(** Lines 149-155 of [async_get_raw_data] on their own: from the parsed
    body to the result. *)
Definition navigate (data : pyval) : M state pyval :=
  let* group_data := py_get data "GetResGroupData" (PyDict ∅) in
  let* floors := py_get group_data "FloorData" (PyList [PyDict ∅]) in
  let* floor_data := py_getitem_0 floors in
  let* floor_no := py_get floor_data "FloorNo" PyNone in
  if py_eq_str floor_no "-1" then
    raise (Exn SessionExpiredException [] None)
  else
    py_get floor_data "GroupData" (PyDict ∅).

(** The login request is the one request sent with redirects disabled;
    [logins_sent] and [data_sent] count the requests of the log to the login
    endpoint and to the data endpoint. *)
Definition is_login_request (req : request) : bool :=
  negb (req_allow_redirects req).

Definition logins_sent (st : state) : nat :=
  length (List.filter is_login_request (sent st)).

Definition data_sent (st : state) : nat :=
  length (List.filter req_allow_redirects (sent st)).

(** The read-state body of an expired session (the body of
    [test_get_raw_data_session_expiry]), a codec that knows it besides the
    texts of [test_loads], and a device that answers the data endpoint with
    [stale_reply] until it has seen a login and with [data_reply] from then
    on. *)
Definition expired_text : string :=
  "{" ++ quoted "GetResGroupData" ++ ": {" ++ quoted "FloorData" ++ ": [{"
  ++ quoted "FloorNo" ++ ": " ++ quoted "-1" ++ "}]}}".

Definition expired_value : pyval :=
  PyDict {[ "GetResGroupData" :=
    PyDict {[ "FloorData" := PyList [PyDict {[ "FloorNo" := PyStr "-1" ]}] ]} ]}.

Definition test_loads_expiry (text : string) : option pyval :=
  if bool_decide (text = expired_text) then Some expired_value
  else test_loads text.

Definition expiring_device (stale_reply data_reply : reply)
    : list request -> request -> reply :=
  fun log req =>
    if req_allow_redirects req then
      if seen_login log then data_reply else stale_reply
    else Reply login_ok.

(** * Properties *)

(** ** Running a computation step by step *)

Lemma bind_returns {St A B} (m : M St A) (k : A -> M St B) s a s' :
  m s = (Returns a, s') -> bind m k s = k a s'.
Proof. intros H. unfold bind. by rewrite H. Qed.

Lemma bind_raises {St A B} (m : M St A) (k : A -> M St B) s e s' :
  m s = (Raises e, s') -> bind m k s = (Raises e, s').
Proof. intros H. unfold bind. by rewrite H. Qed.

Lemma bind_get {St B} (k : St -> M St B) s : bind get k s = k s s.
Proof. done. Qed.

Lemma bind_ret {St A B} (v : A) (k : A -> M St B) s : bind (ret v) k s = k v s.
Proof. done. Qed.

Lemma bind_modify {St B} (f : St -> St) (k : unit -> M St B) s :
  bind (modify f) k s = k tt (f s).
Proof. done. Qed.

Lemma bind_raise {St A B} (e : exn) (k : A -> M St B) s :
  bind (raise e) k s = (Raises e, s).
Proof. done. Qed.


(** ** The coordinator, one iteration at a time *)

Section wrapper_facts.
Context {St T : Type}.
Variable login : M St string.
Variable set_cookie : string -> St -> St.
Variable max_retries : Z.
Variable func : M St T.

Local Abbreviation loop := (wrapper_loop login set_cookie max_retries func).

Lemma py_range_succ (n : Z) :
  0 <= n -> py_range (n + 1) = Z.of_nat <$> seq 0 (S (Z.to_nat n)).
Proof.
  intros Hn. unfold py_range.
  by replace (Z.to_nat (n + 1)) with (S (Z.to_nat n)) by lia.
Qed.

Lemma py_range_nonpos (n : Z) : n <= 0 -> py_range n = [].
Proof.
  intros Hn. unfold py_range. by replace (Z.to_nat n) with 0%nat by lia.
Qed.

Lemma loop_returns attempt rest s v s' :
  func s = (Returns v, s') ->
  loop (attempt :: rest) s = (Returns v, s').
Proof. intros Hf. cbn. unfold try_except. by rewrite Hf. Qed.

Lemma loop_propagates attempt rest s e s' :
  func s = (Raises e, s') ->
  exn_cls e ≠ SessionExpiredException ->
  loop (attempt :: rest) s = (Raises e, s').
Proof.
  intros Hf Hcls. cbn. unfold try_except, is_session_expired.
  by rewrite Hf, bool_decide_eq_false_2.
Qed.

Lemma loop_handles attempt rest s e s' :
  func s = (Raises e, s') ->
  exn_cls e = SessionExpiredException ->
  loop (attempt :: rest) s
  = on_session_expired login set_cookie max_retries attempt (loop rest) e s'.
Proof.
  intros Hf Hcls. cbn. unfold try_except, is_session_expired.
  by rewrite Hf, bool_decide_eq_true_2.
Qed.

Lemma loop_retries attempt rest s e s1 cookie s2 :
  func s = (Raises e, s1) ->
  exn_cls e = SessionExpiredException ->
  attempt < max_retries ->
  login s1 = (Returns cookie, s2) ->
  loop (attempt :: rest) s = loop rest (set_cookie cookie s2).
Proof.
  intros Hf Hcls Hlt Hl. rewrite (loop_handles _ _ _ _ _ Hf Hcls).
  unfold on_session_expired. rewrite bool_decide_eq_true_2 by done.
  unfold bind, modify. by rewrite Hl.
Qed.

Lemma loop_gives_up attempt rest s e s1 :
  func s = (Raises e, s1) ->
  exn_cls e = SessionExpiredException ->
  ¬ attempt < max_retries ->
  loop (attempt :: rest) s
  = (Raises (Exn ApiCallFailedException
               [max_retries_message max_retries] (Some e)), s1).
Proof.
  intros Hf Hcls Hlt. rewrite (loop_handles _ _ _ _ _ Hf Hcls).
  unfold on_session_expired. by rewrite bool_decide_eq_false_2.
Qed.

(** Whatever the loop raises is raised by the login, or is not a
    [SessionExpiredException]. *)
Lemma loop_never_expired attempts :
  (forall s e s', login s = (Raises e, s') ->
                  exn_cls e ≠ SessionExpiredException) ->
  forall s e s',
    loop attempts s = (Raises e, s') ->
    exn_cls e ≠ SessionExpiredException.
Proof.
  intros Hlogin. induction attempts as [|attempt rest IH]; intros s e s'.
  - cbn. unfold raise. intros [= <- _]. done.
  - cbn. unfold try_except.
    destruct (func s) as [[v|e1] s1] eqn:Hf; [done|].
    unfold is_session_expired. case_bool_decide as Hcls.
    + unfold on_session_expired. case_bool_decide.
      * unfold bind, modify.
        destruct (login s1) as [[c|e2] s2] eqn:Hl.
        -- apply IH.
        -- intros [= <- _]. eauto.
      * unfold raise. intros [= <- _]. done.
    + intros [= <- _]. done.
Qed.
End wrapper_facts.

(** ** Counting the calls of the coordinator

    The wrapped operation and the login are arbitrary computations; their
    calls are counted the way a test double counts them, by two observers
    [calls] and [logins] of the state that each computation advances by one
    when it runs, and that assigning the cookie leaves alone. *)

Section counting.
Context {St T : Type}.
Variable login : M St string.
Variable set_cookie : string -> St -> St.
Variable func : M St T.
Variables calls logins : St -> nat.

Hypothesis login_succeeds :
  forall s, exists cookie s',
    login s = (Returns cookie, s')
    /\ logins s' = S (logins s) /\ calls s' = calls s.
Hypothesis set_cookie_silent :
  forall cookie s,
    calls (set_cookie cookie s) = calls s
    /\ logins (set_cookie cookie s) = logins s.

(** The loop over the attempts [first, ..., first + more] when the
    operation keeps raising [SessionExpiredException]. *)
Lemma loop_always_expired (max_retries : Z) (more : nat) :
  (forall s, exists e s',
      func s = (Raises e, s')
      /\ exn_cls e = SessionExpiredException
      /\ calls s' = S (calls s) /\ logins s' = logins s) ->
  forall (first : nat) s,
    Z.of_nat (first + more) = max_retries ->
    exists e s_last s',
      wrapper_loop login set_cookie max_retries func
        (Z.of_nat <$> seq first (S more)) s
      = (Raises (Exn ApiCallFailedException
                   [max_retries_message max_retries] (Some e)), s')
      /\ func s_last = (Raises e, s')
      /\ exn_cls e = SessionExpiredException
      /\ calls s' = (calls s + more + 1)%nat
      /\ logins s' = (logins s + more)%nat.
Proof.
  intros Hfunc. induction more as [|more IH]; intros first s Hn.
  - destruct (Hfunc s) as (e & s1 & Hf & Hcls & Hc & Hl).
    exists e, s, s1. cbn [seq fmap list_fmap].
    rewrite (loop_gives_up _ _ _ _ _ _ _ _ _ Hf Hcls) by lia.
    repeat split; [done..|lia|lia].
  - destruct (Hfunc s) as (e & s1 & Hf & Hcls & Hc & Hl).
    destruct (login_succeeds s1) as (cookie & s2 & Hlog & Hl2 & Hc2).
    destruct (set_cookie_silent cookie s2) as [Hc3 Hl3].
    destruct (IH (S first) (set_cookie cookie s2)) as (e' & sl & s' & Hrun & ?)
      ; [lia|].
    exists e', sl, s'.
    change (seq first (S (S more))) with (first :: seq (S first) (S more)).
    rewrite fmap_cons.
    rewrite (loop_retries _ _ _ _ _ _ _ _ _ cookie s2 Hf Hcls); [|lia|done].
    rewrite Hrun. intuition lia.
Qed.

(** The loop when the operation raises [SessionExpiredException] on its
    next [failures] calls and then returns [value]: [target] is the value
    of [calls] at which it starts to succeed. *)
Lemma loop_expired_then_succeeds (max_retries : Z) (value : T) (target : nat) :
  (forall s, (calls s < target)%nat -> exists e s',
      func s = (Raises e, s')
      /\ exn_cls e = SessionExpiredException
      /\ calls s' = S (calls s) /\ logins s' = logins s) ->
  (forall s, calls s = target -> exists s',
      func s = (Returns value, s')
      /\ calls s' = S (calls s) /\ logins s' = logins s) ->
  forall (failures first more : nat) s,
    (calls s + failures)%nat = target ->
    (failures <= more)%nat ->
    Z.of_nat (first + more) = max_retries ->
    exists s',
      wrapper_loop login set_cookie max_retries func
        (Z.of_nat <$> seq first (S more)) s
      = (Returns value, s')
      /\ calls s' = (calls s + failures + 1)%nat
      /\ logins s' = (logins s + failures)%nat.
Proof.
  intros Hfail Hsucc.
  induction failures as [|failures IH]; intros first more s Ht Hle Hn.
  - destruct (Hsucc s) as (s' & Hf & Hc & Hl); [lia|].
    exists s'. cbn [seq fmap list_fmap].
    rewrite (loop_returns _ _ _ _ _ _ _ _ _ Hf). intuition lia.
  - destruct (Hfail s) as (e & s1 & Hf & Hcls & Hc & Hl); [lia|].
    destruct (login_succeeds s1) as (cookie & s2 & Hlog & Hl2 & Hc2).
    destruct (set_cookie_silent cookie s2) as [Hc3 Hl3].
    destruct more as [|more]; [lia|].
    destruct (IH (S first) more (set_cookie cookie s2)) as (s' & Hrun & ?);
      [lia..|].
    exists s'.
    change (seq first (S (S more))) with (first :: seq (S first) (S more)).
    rewrite fmap_cons.
    rewrite (loop_retries _ _ _ _ _ _ _ _ _ cookie s2 Hf Hcls); [|lia|done].
    rewrite Hrun. intuition lia.
Qed.
End counting.

(** The same count when, after its expiries, the operation raises an
    exception of another class: the loop stops there. *)
Lemma loop_expired_then_raises {St T : Type} (login : M St string)
    (set_cookie : string -> St -> St) (func : M St T)
    (calls logins : St -> nat) (max_retries : Z) (e : exn) (target : nat) :
  exn_cls e ≠ SessionExpiredException ->
  (forall s, (calls s < target)%nat -> exists e1 s',
      func s = (Raises e1, s')
      /\ exn_cls e1 = SessionExpiredException
      /\ calls s' = S (calls s) /\ logins s' = logins s) ->
  (forall s, calls s = target -> exists s',
      func s = (Raises e, s')
      /\ calls s' = S (calls s) /\ logins s' = logins s) ->
  (forall s, exists cookie s',
      login s = (Returns cookie, s')
      /\ logins s' = S (logins s) /\ calls s' = calls s) ->
  (forall cookie s,
      calls (set_cookie cookie s) = calls s
      /\ logins (set_cookie cookie s) = logins s) ->
  forall (failures first more : nat) s,
    (calls s + failures)%nat = target ->
    (failures <= more)%nat ->
    Z.of_nat (first + more) = max_retries ->
    exists s_last s',
      wrapper_loop login set_cookie max_retries func
        (Z.of_nat <$> seq first (S more)) s
      = (Raises e, s')
      /\ func s_last = (Raises e, s')
      /\ calls s_last = target
      /\ calls s' = (calls s + failures + 1)%nat
      /\ logins s' = (logins s + failures)%nat.
Proof.
  intros Hcls Hfail Hstop Hlogin Hset.
  induction failures as [|failures IH]; intros first more s Ht Hle Hn.
  - destruct (Hstop s) as (s' & Hf & Hc & Hl); [lia|].
    exists s, s'. cbn [seq fmap list_fmap].
    rewrite (loop_propagates _ _ _ _ _ _ _ _ _ Hf Hcls). intuition lia.
  - destruct (Hfail s) as (e1 & s1 & Hf & Hcls1 & Hc & Hl); [lia|].
    destruct (Hlogin s1) as (cookie & s2 & Hlog & Hl2 & Hc2).
    destruct (Hset cookie s2) as [Hc3 Hl3].
    destruct more as [|more]; [lia|].
    destruct (IH (S first) more (set_cookie cookie s2))
      as (sl & s' & Hrun & ?); [lia..|].
    exists sl, s'.
    change (seq first (S (S more))) with (first :: seq (S first) (S more)).
    rewrite fmap_cons.
    rewrite (loop_retries _ _ _ _ _ _ _ _ _ cookie s2 Hf Hcls1); [|lia|done].
    rewrite Hrun. intuition lia.
Qed.

(** What [_async_login] can raise: one of three classes of the module, or
    whatever the transport raised. *)
Lemma _async_login_raises network st e st' :
  _async_login network st = (Raises e, st') ->
  exn_cls e = SessionNotInitializedException
  \/ exn_cls e = LoginFailedException
  \/ exn_cls e = NoSessionCookieException
  \/ exists name, exn_cls e = OtherException name.
Proof.
  unfold _async_login, require_session, self_session_post, ClientSession_post,
    try_except, bind, get, ret, raise, session_not_initialized.
  intros H.
  repeat (case_match; simplify_eq/=); eauto 6.
Qed.

Lemma _async_login_never_expired network st e st' :
  _async_login network st = (Raises e, st') ->
  exn_cls e ≠ SessionExpiredException.
Proof.
  intros H. apply _async_login_raises in H.
  destruct H as [H|[H|[H|[name H]]]]; by rewrite H.
Qed.

(** ** The claims about the coordinator *)

(** C1.  For every [max_retries] = n >= 0: when the wrapped operation
    raises [SessionExpiredException] on every attempt (and each login the
    coordinator asks for succeeds), [reauth_retry] runs the wrapped
    operation exactly n+1 times and the login exactly n times, and then
    raises an [ApiCallFailedException] whose cause is the
    [SessionExpiredException] of the last attempt; nothing runs after that
    attempt. *)
Theorem reauth_retry_always_expired
    {St T : Type} (login : M St string) (set_cookie : string -> St -> St)
    (func : M St T) (calls logins : St -> nat) (n : Z) (s : St) :
  0 <= n ->
  (forall s1, exists e s2,
      func s1 = (Raises e, s2)
      /\ exn_cls e = SessionExpiredException
      /\ calls s2 = S (calls s1) /\ logins s2 = logins s1) ->
  (forall s1, exists cookie s2,
      login s1 = (Returns cookie, s2)
      /\ logins s2 = S (logins s1) /\ calls s2 = calls s1) ->
  (forall cookie s1,
      calls (set_cookie cookie s1) = calls s1
      /\ logins (set_cookie cookie s1) = logins s1) ->
  exists e s_last s',
    reauth_retry login set_cookie n func s
    = (Raises (Exn ApiCallFailedException [max_retries_message n] (Some e)), s')
    /\ func s_last = (Raises e, s')
    /\ exn_cls e = SessionExpiredException
    /\ calls s' = (calls s + (Z.to_nat n + 1))%nat
    /\ logins s' = (logins s + Z.to_nat n)%nat.
Proof.
  intros Hn Hfunc Hlogin Hset.
  unfold reauth_retry, wrapper.
  rewrite py_range_succ by lia.
  destruct (loop_always_expired login set_cookie func calls logins
              Hlogin Hset n (Z.to_nat n) Hfunc 0%nat s)
    as (e & sl & s' & Hrun & Hlast & Hcls & Hc & Hl); [lia|].
  exists e, sl, s'. rewrite Hrun. intuition lia.
Qed.

(** The unit test [test_reauth_retry_decorator]: two retries, three calls
    of the operation, two logins. *)
Lemma reauth_retry_always_expired_witness :
  exists e s_last s',
    reauth_retry mock_login mock_set_cookie 2 mock_func_expired (Mock 0 0 None)
    = (Raises (Exn ApiCallFailedException [max_retries_message 2] (Some e)), s')
    /\ mock_func_expired s_last = (Raises e, s')
    /\ exn_cls e = SessionExpiredException
    /\ func_calls s' = 3%nat
    /\ login_calls s' = 2%nat.
Proof.
  apply (reauth_retry_always_expired mock_login mock_set_cookie
           mock_func_expired func_calls login_calls 2 (Mock 0 0 None)).
  - lia.
  - intros s1. eexists _, _. repeat split; reflexivity.
  - intros s1. eexists _, _. repeat split; reflexivity.
  - intros cookie s1. split; reflexivity.
Defined.

(** C3.  For every [max_retries] = n and every k <= n: when the wrapped
    operation raises [SessionExpiredException] on exactly its first k
    attempts and then returns [value] (and each login succeeds),
    [reauth_retry] returns [value] after exactly k logins, and k+1 runs of
    the operation. *)
Theorem reauth_retry_expired_then_succeeds
    {St T : Type} (login : M St string) (set_cookie : string -> St -> St)
    (func : M St T) (calls logins : St -> nat) (n : Z) (k : nat)
    (value : T) (s : St) :
  Z.of_nat k <= n ->
  (forall s1, (calls s1 < calls s + k)%nat -> exists e s2,
      func s1 = (Raises e, s2)
      /\ exn_cls e = SessionExpiredException
      /\ calls s2 = S (calls s1) /\ logins s2 = logins s1) ->
  (forall s1, calls s1 = (calls s + k)%nat -> exists s2,
      func s1 = (Returns value, s2)
      /\ calls s2 = S (calls s1) /\ logins s2 = logins s1) ->
  (forall s1, exists cookie s2,
      login s1 = (Returns cookie, s2)
      /\ logins s2 = S (logins s1) /\ calls s2 = calls s1) ->
  (forall cookie s1,
      calls (set_cookie cookie s1) = calls s1
      /\ logins (set_cookie cookie s1) = logins s1) ->
  exists s',
    reauth_retry login set_cookie n func s = (Returns value, s')
    /\ logins s' = (logins s + k)%nat
    /\ calls s' = (calls s + (k + 1))%nat.
Proof.
  intros Hk Hfail Hsucc Hlogin Hset.
  unfold reauth_retry, wrapper.
  rewrite py_range_succ by lia.
  destruct (loop_expired_then_succeeds login set_cookie func calls logins
              Hlogin Hset n value (calls s + k) Hfail Hsucc
              k 0%nat (Z.to_nat n) s)
    as (s' & Hrun & Hc & Hl); [lia..|].
  exists s'. rewrite Hrun. intuition lia.
Qed.

(** Two expiries out of a budget of three retries. *)
Lemma reauth_retry_expired_then_succeeds_witness :
  exists s',
    reauth_retry mock_login mock_set_cookie 3 (mock_func 2 "done") (Mock 0 0 None)
    = (Returns "done", s')
    /\ login_calls s' = 2%nat
    /\ func_calls s' = 3%nat.
Proof.
  apply (reauth_retry_expired_then_succeeds mock_login mock_set_cookie
           (mock_func 2 "done") func_calls login_calls 3 2 "done"
           (Mock 0 0 None)).
  - lia.
  - intros s1 Hlt. eexists _, _. unfold mock_func.
    rewrite bool_decide_eq_true_2 by exact Hlt. repeat split; reflexivity.
  - intros s1 Heq. eexists. unfold mock_func.
    rewrite bool_decide_eq_false_2 by (rewrite Heq; cbn; lia).
    repeat split; reflexivity.
  - intros s1. eexists _, _. repeat split; reflexivity.
  - intros cookie s1. split; reflexivity.
Defined.

(** C2.  A [SessionExpiredException] never leaves an operation wrapped by
    the coordinator of the client, whatever the operation, the budget and
    the device do; and an exception of any other class raised by the wrapped
    operation comes out as it is, in the state the operation left, on
    whichever attempt it is raised.  The parts about the other classes hold
    for every login and every way of storing the cookie: on the first
    attempt (part 2), in any iteration of the loop, whatever its number and
    whatever is left of the loop (part 3), and counted from the call of the
    coordinator (part 4): after k <= n expiries, each followed by a login,
    the exception of the next run comes out after exactly k+1 runs and k
    logins, so no login and no retry follows it. *)
Theorem reauth_retry_propagation {T : Type} (n : Z) :
  (forall network (func : M state T) st e st',
      reauth_retry (_async_login network) assign_session_cookie n func st
      = (Raises e, st') ->
      exn_cls e ≠ SessionExpiredException)
  /\ (forall (St : Type) (login : M St string)
             (set_cookie : string -> St -> St) (func : M St T) s e s',
         0 <= n ->
         func s = (Raises e, s') ->
         exn_cls e ≠ SessionExpiredException ->
         reauth_retry login set_cookie n func s = (Raises e, s'))
  /\ (forall (St : Type) (login : M St string)
             (set_cookie : string -> St -> St) (func : M St T)
             (attempt : Z) (rest : list Z) s e s',
         func s = (Raises e, s') ->
         exn_cls e ≠ SessionExpiredException ->
         wrapper_loop login set_cookie n func (attempt :: rest) s
         = (Raises e, s'))
  /\ (forall (St : Type) (login : M St string)
             (set_cookie : string -> St -> St) (func : M St T)
             (calls logins : St -> nat) (k : nat) (e : exn) (s : St),
         Z.of_nat k <= n ->
         exn_cls e ≠ SessionExpiredException ->
         (forall s1, (calls s1 < calls s + k)%nat -> exists e1 s2,
             func s1 = (Raises e1, s2)
             /\ exn_cls e1 = SessionExpiredException
             /\ calls s2 = S (calls s1) /\ logins s2 = logins s1) ->
         (forall s1, calls s1 = (calls s + k)%nat -> exists s2,
             func s1 = (Raises e, s2)
             /\ calls s2 = S (calls s1) /\ logins s2 = logins s1) ->
         (forall s1, exists cookie s2,
             login s1 = (Returns cookie, s2)
             /\ logins s2 = S (logins s1) /\ calls s2 = calls s1) ->
         (forall cookie s1,
             calls (set_cookie cookie s1) = calls s1
             /\ logins (set_cookie cookie s1) = logins s1) ->
         exists s_last s',
           reauth_retry login set_cookie n func s = (Raises e, s')
           /\ func s_last = (Raises e, s')
           /\ calls s_last = (calls s + k)%nat
           /\ calls s' = (calls s + (k + 1))%nat
           /\ logins s' = (logins s + k)%nat).
Proof.
  split; [|split; [|split]].
  - intros network func st e st'. unfold reauth_retry, wrapper.
    apply loop_never_expired. intros s. apply _async_login_never_expired.
  - intros St login set_cookie func s e s' Hn Hf Hcls.
    unfold reauth_retry, wrapper. rewrite py_range_succ by done.
    by apply loop_propagates.
  - intros St login set_cookie func attempt rest s e s' Hf Hcls.
    by apply loop_propagates.
  - intros St login set_cookie func calls logins k e s
      Hk Hcls Hfail Hstop Hlogin Hset.
    unfold reauth_retry, wrapper. rewrite py_range_succ by lia.
    destruct (loop_expired_then_raises login set_cookie func calls logins
                n e (calls s + k) Hcls Hfail Hstop Hlogin Hset
                k 0%nat (Z.to_nat n) s)
      as (sl & s' & Hrun & Hlast & Hcl & Hc & Hl); [lia..|].
    exists sl, s'. rewrite Hrun. intuition lia.
Qed.

(** A [TimeoutError] of the wrapped operation on the first attempt: one
    call, no login; and on the second attempt, after one expiry: two calls,
    one login, and no more. *)
Lemma reauth_retry_propagation_witness :
  reauth_retry mock_login mock_set_cookie 3 mock_func_timeout (Mock 0 0 None)
  = (Raises (Exn TimeoutError [] None), Mock 1 0 None)
  /\ exists s_last s',
       reauth_retry mock_login mock_set_cookie 3 (mock_func_then_timeout 1)
         (Mock 0 0 None)
       = (Raises (Exn TimeoutError [] None), s')
       /\ mock_func_then_timeout 1 s_last = (Raises (Exn TimeoutError [] None), s')
       /\ func_calls s_last = 1%nat
       /\ func_calls s' = 2%nat
       /\ login_calls s' = 1%nat.
Proof.
  split.
  - apply (proj1 (proj2 (reauth_retry_propagation 3))).
    + lia.
    + reflexivity.
    + discriminate.
  - apply (proj2 (proj2 (proj2 (reauth_retry_propagation 3)))
             mock mock_login mock_set_cookie (mock_func_then_timeout 1)
             func_calls login_calls 1%nat (Exn TimeoutError [] None)
             (Mock 0 0 None)).
    + lia.
    + discriminate.
    + intros s1 Hlt. eexists _, _. unfold mock_func_then_timeout.
      rewrite bool_decide_eq_true_2 by exact Hlt. repeat split; reflexivity.
    + intros s1 Heq. eexists. unfold mock_func_then_timeout.
      rewrite bool_decide_eq_false_2 by (rewrite Heq; cbn; lia).
      repeat split; reflexivity.
    + intros s1. eexists _, _. repeat split; reflexivity.
    + intros cookie s1. split; reflexivity.
Defined.

(** When the login that the coordinator asks for raises, that exception
    reaches the caller: the operation has run once and is not retried. *)
Theorem reauth_retry_login_fails
    {St T : Type} (login : M St string) (set_cookie : string -> St -> St)
    (func : M St T) (n : Z) (s s1 s2 : St) (e e' : exn) :
  0 < n ->
  func s = (Raises e, s1) ->
  exn_cls e = SessionExpiredException ->
  login s1 = (Raises e', s2) ->
  reauth_retry login set_cookie n func s = (Raises e', s2).
Proof.
  intros Hn Hf Hcls Hl. unfold reauth_retry, wrapper.
  rewrite py_range_succ by lia. cbn [seq fmap list_fmap].
  rewrite (loop_handles _ _ _ _ _ _ _ _ _ Hf Hcls).
  unfold on_session_expired. rewrite bool_decide_eq_true_2 by (cbn; lia).
  by rewrite (bind_raises _ _ _ _ _ Hl).
Qed.

(** An expired session and a device that answers the login with status
    500. *)
Lemma reauth_retry_login_fails_witness :
  reauth_retry (_async_login (always (Reply (Response 500 no_headers ""))))
    assign_session_cookie 3
    (raise (Exn SessionExpiredException [] None) : M state pyval) own_client
  = (Raises (Exn LoginFailedException ["Login failed with status 500"] None),
     record_sent (login_request (self own_client)) own_client).
Proof.
  apply (reauth_retry_login_fails _ _ _ 3 own_client own_client
           (record_sent (login_request (self own_client)) own_client)
           (Exn SessionExpiredException [] None)).
  - lia.
  - reflexivity.
  - reflexivity.
  - reflexivity.
Defined.

(** With a negative budget the loop has no iteration: the operation is
    never run and the [raise] after the loop is what the caller gets. *)
Theorem reauth_retry_negative_budget
    {St T : Type} (login : M St string) (set_cookie : string -> St -> St)
    (func : M St T) (n : Z) (s : St) :
  n < 0 ->
  reauth_retry login set_cookie n func s
  = (Raises (Exn ApiCallFailedException [max_retries_message n] None), s).
Proof.
  intros Hn. unfold reauth_retry, wrapper.
  by rewrite py_range_nonpos by lia.
Qed.

Lemma reauth_retry_negative_budget_witness :
  reauth_retry mock_login mock_set_cookie (-1) mock_func_expired (Mock 0 0 None)
  = (Raises (Exn ApiCallFailedException
               ["Max re-authentication attempts (-1) reached."] None),
     Mock 0 0 None).
Proof.
  apply (reauth_retry_negative_budget mock_login mock_set_cookie
           mock_func_expired (-1) (Mock 0 0 None)).
  lia.
Defined.

(** ** The device operations, step by step *)

Section device_facts.
Variable network : list request -> request -> reply.
Variable json_loads : string -> option pyval.
Variable json_dumps : pyval -> string.

(** A handler that re-raises what it caught changes nothing. *)
Lemma try_except_reraise {St T} (body : M St T) catches s :
  try_except body catches (fun e => raise e) s = body s.
Proof.
  unfold try_except, raise. destruct (body s) as [[v|e] s']; [done|].
  by destruct (catches e).
Qed.

Lemma require_session_some st session :
  _session (self st) = Some session ->
  require_session st = (Returns tt, st).
Proof. intros H. unfold require_session, bind, get, ret. by rewrite H. Qed.

Lemma require_session_none st :
  _session (self st) = None ->
  require_session st = (Raises session_not_initialized, st).
Proof. intros H. unfold require_session, bind, get, raise. by rewrite H. Qed.

Lemma self_session_post_reply st session req resp :
  _session (self st) = Some session ->
  sessions st !! session = Some false ->
  network (sent st) req = Reply resp ->
  self_session_post network req st = (Returns resp, record_sent req st).
Proof.
  intros Hs Ho Hr. unfold self_session_post, ClientSession_post, bind, get.
  by rewrite Hs, Ho, Hr.
Qed.

(** A wrapped operation that fails for want of a session fails the same
    way once wrapped. *)
Lemma reauth_retry_propagates_3 {T} (func : M state T) st e st' :
  func st = (Raises e, st') ->
  exn_cls e ≠ SessionExpiredException ->
  reauth_retry (_async_login network) assign_session_cookie 3 func st
  = (Raises e, st').
Proof. intros Hf Hcls. by apply loop_propagates. Qed.

Lemma reauth_retry_returns_3 {T} (func : M state T) st v st' :
  func st = (Returns v, st') ->
  reauth_retry (_async_login network) assign_session_cookie 3 func st
  = (Returns v, st').
Proof. intros Hf. by apply loop_returns. Qed.
End device_facts.

(** ** The claims about the device operations *)

(** C6.  Login, once the device has answered the login request: it
    succeeds if and only if the status is exactly 302 and the [Set-Cookie]
    header is present and non-empty, and then returns the header value as
    it is; any other status raises [LoginFailedException] with the status
    in its message; status 302 with the header missing or empty raises
    [NoSessionCookieException]. *)
Theorem login_outcome
    (network : list request -> request -> reply)
    (st : state) (session : session_ref) (resp : response) :
  _session (self st) = Some session ->
  sessions st !! session = Some false ->
  network (sent st) (login_request (self st)) = Reply resp ->
  let st' := record_sent (login_request (self st)) st in
  let cookie := resp_headers_get resp "Set-Cookie" in
  (resp_status resp ≠ 302 ->
     _async_login network st
     = (Raises (Exn LoginFailedException
                  ["Login failed with status " ++ fmt_int (resp_status resp)]
                  None), st'))
  /\ (resp_status resp = 302 -> cookie = None \/ cookie = Some "" ->
        _async_login network st = (Raises no_session_cookie, st'))
  /\ (forall c, resp_status resp = 302 -> cookie = Some c -> c ≠ "" ->
        _async_login network st = (Returns c, st')
        /\ async_login network st = (Returns c, st'))
  /\ ((exists c st2, _async_login network st = (Returns c, st2))
      <-> resp_status resp = 302 /\ exists c, cookie = Some c /\ c ≠ "").
Proof.
  intros Hs Ho Hr st' cookie.
  assert (Hrun : _async_login network st
    = if bool_decide (resp_status resp ≠ 302) then
        (Raises (Exn LoginFailedException
                   ["Login failed with status " ++ fmt_int (resp_status resp)]
                   None), st')
      else if negb (opt_str_truthy cookie) then (Raises no_session_cookie, st')
      else (Returns (default "" cookie), st')).
  { unfold _async_login, bind at 1.
    rewrite (require_session_some _ _ Hs). unfold bind at 1, get at 1.
    rewrite try_except_reraise. unfold bind.
    rewrite (self_session_post_reply network _ _ _ _ Hs Ho Hr).
    fold st' cookie.
    case_bool_decide; [done|]. by destruct (opt_str_truthy cookie). }
  unfold async_login. rewrite Hrun. clear Hrun.
  split; [|split; [|split; [|split]]].
  - intros Hne. by rewrite bool_decide_eq_true_2.
  - intros Heq Hc. rewrite bool_decide_eq_false_2 by (intros ?; done).
    by destruct Hc as [-> | ->].
  - intros c Heq Hc Hne. rewrite bool_decide_eq_false_2 by (intros ?; done).
    rewrite Hc. by destruct c.
  - intros (c & st2 & Hret). case_bool_decide as Hst; [done|].
    split; [done|].
    destruct cookie as [[|a c']|]; [done| |done]. by eexists.
  - intros [Heq (c & Hc & Hne)].
    rewrite bool_decide_eq_false_2 by (intros ?; done).
    rewrite Hc. destruct c; [done|]. by eexists _, _.
Qed.

(** The unit test [test_successful_login]: status 302 with the header
    [Set-Cookie: session=123]. *)
Lemma login_outcome_witness :
  _async_login (always (Reply login_ok)) own_client
  = (Returns "session=123",
     record_sent (login_request (self own_client)) own_client).
Proof.
  apply (login_outcome (always (Reply login_ok)) own_client 0%nat login_ok);
    reflexivity || discriminate.
Defined.

(** C7.  With no transport session ([self._session] is [None]) login, read
    state and the send primitive, wrapped or not, raise
    [SessionNotInitializedException] and leave the state as it was: no
    request has gone out.  That is the state [close_session] leaves a
    client in that created its session itself. *)
Theorem no_session_no_request
    (network : list request -> request -> reply)
    (json_loads : string -> option pyval) (json_dumps : pyval -> string)
    (payload : pyval) (st : state)
    (host username password : string) (heap : gmap session_ref bool)
    (log : list request) :
  _session (self st) = None ->
  (_async_login network st = (Raises session_not_initialized, st)
   /\ async_login network st = (Raises session_not_initialized, st)
   /\ async_get_raw_data_func network json_loads st
      = (Raises session_not_initialized, st)
   /\ async_get_raw_data network json_loads st
      = (Raises session_not_initialized, st)
   /\ _async_send_command_func network json_loads json_dumps payload st
      = (Raises session_not_initialized, st)
   /\ _async_send_command network json_loads json_dumps payload st
      = (Raises session_not_initialized, st))
  /\ _session (self (close_session (__init__ host username password None heap log)).2)
     = None.
Proof.
  intros Hs.
  assert (Hlogin : _async_login network st = (Raises session_not_initialized, st)).
  { unfold _async_login, bind. by rewrite (require_session_none _ Hs). }
  assert (Hread : async_get_raw_data_func network json_loads st
                  = (Raises session_not_initialized, st)).
  { unfold async_get_raw_data_func, bind. by rewrite (require_session_none _ Hs). }
  assert (Hsend : _async_send_command_func network json_loads json_dumps payload st
                  = (Raises session_not_initialized, st)).
  { unfold _async_send_command_func, bind. by rewrite (require_session_none _ Hs). }
  split; [|done].
  repeat split; try done.
  - by apply reauth_retry_propagates_3.
  - by apply reauth_retry_propagates_3.
Qed.

(** The client that made its own session, after [close_session]. *)
Lemma no_session_no_request_witness :
  let closed := (close_session own_client).2 in
  (_async_login (always (Reply login_ok)) closed
   = (Raises session_not_initialized, closed)
   /\ async_login (always (Reply login_ok)) closed
      = (Raises session_not_initialized, closed)
   /\ async_get_raw_data_func (always (Reply login_ok)) test_loads closed
      = (Raises session_not_initialized, closed)
   /\ async_get_raw_data (always (Reply login_ok)) test_loads closed
      = (Raises session_not_initialized, closed)
   /\ _async_send_command_func (always (Reply login_ok)) test_loads test_dumps
        (PyDict ∅) closed
      = (Raises session_not_initialized, closed)
   /\ _async_send_command (always (Reply login_ok)) test_loads test_dumps
        (PyDict ∅) closed
      = (Raises session_not_initialized, closed))
  /\ _session (self (close_session
                       (__init__ "testhost" "testuser" "testpass" None ∅ [])).2)
     = None.
Proof.
  apply (no_session_no_request (always (Reply login_ok)) test_loads test_dumps
           (PyDict ∅) (close_session own_client).2
           "testhost" "testuser" "testpass" ∅ []).
  reflexivity.
Defined.

(** C8.  [close_session] releases the transport session if and only if the
    client created it: a client that made its own session has that session
    closed and holds none afterwards; a client that was given a session
    leaves it, and everything else, as it was. *)
Theorem close_session_releases_own_session_only
    (host username password : string) (external : session_ref)
    (heap : gmap session_ref bool) (log : list request) :
  let own := __init__ host username password None heap log in
  let guest := __init__ host username password (Some external) heap log in
  let new_session := fresh (dom heap) in
  (heap !! new_session = None
   /\ _session (self own) = Some new_session
   /\ _session_created_internally (self own) = true
   /\ sessions own !! new_session = Some false
   /\ (close_session own).1 = Returns tt
   /\ _session (self (close_session own).2) = None
   /\ sessions (close_session own).2 = <[new_session := true]> (sessions own))
  /\ (_session (self guest) = Some external
      /\ _session_created_internally (self guest) = false
      /\ close_session guest = (Returns tt, guest)
      /\ sessions guest = heap)
  /\ (forall st session,
        _session (self st) = Some session ->
        sessions st !! session = Some false ->
        (sessions (close_session st).2 !! session = Some true
         <-> _session_created_internally (self st) = true)
        /\ (_session (self (close_session st).2) = None
            <-> _session_created_internally (self st) = true)).
Proof.
  intros own guest new_session. split; [|split].
  - repeat split; try reflexivity.
    + apply not_elem_of_dom, is_fresh.
    + cbn. apply lookup_insert_eq.
  - repeat split; reflexivity.
  - intros st session Hs Ho.
    unfold close_session, bind, get, ClientSession_close, modify, ret.
    rewrite Hs. destruct (_session_created_internally (self st)); cbn.
    + rewrite lookup_insert_eq. done.
    + rewrite Hs, Ho. split; split; done.
Qed.

(** The client that made its own session 0 has it closed; the client that
    was given session 7 is left as it was. *)
Lemma close_session_releases_own_session_only_witness :
  sessions (close_session own_client).2 !! 0%nat = Some true
  /\ close_session guest_client = (Returns tt, guest_client).
Proof.
  split.
  - apply (proj1 (proj2 (proj2 (close_session_releases_own_session_only
                                  "testhost" "testuser" "testpass" 7%nat ∅ []))
                   own_client 0%nat eq_refl eq_refl)).
    reflexivity.
  - apply (close_session_releases_own_session_only
             "testhost" "testuser" "testpass" 7%nat {[ 7%nat := false ]} []).
Defined.

(** C10.  On a client that has a transport session, a payload that is not
    a [dict] makes the send primitive, wrapped or not, return the mapping
    of [_async_send_command] to [Payload is not a dictionary]; the state is
    as it was, so no request has gone out, and nothing is raised. *)
Theorem send_command_not_a_dictionary
    (network : list request -> request -> reply)
    (json_loads : string -> option pyval) (json_dumps : pyval -> string)
    (payload : pyval) (st : state) (session : session_ref) :
  is_dict payload = false ->
  _session (self st) = Some session ->
  _async_send_command_func network json_loads json_dumps payload st
  = (Returns (PyDict {[ "_async_send_command" := PyStr "Payload is not a dictionary" ]}),
     st)
  /\ _async_send_command network json_loads json_dumps payload st
     = (Returns (PyDict {[ "_async_send_command" := PyStr "Payload is not a dictionary" ]}),
        st).
Proof.
  intros Hd Hs.
  assert (Hf : _async_send_command_func network json_loads json_dumps payload st
               = (Returns not_a_dictionary, st)).
  { unfold _async_send_command_func, bind.
    by rewrite (require_session_some _ _ Hs), Hd. }
  split; [done|]. by apply reauth_retry_returns_3.
Qed.

(** A list as the payload. *)
Lemma send_command_not_a_dictionary_witness :
  _async_send_command_func (always (Reply login_ok)) test_loads test_dumps
    (PyList [PyInt 1]) own_client
  = (Returns (PyDict {[ "_async_send_command" := PyStr "Payload is not a dictionary" ]}),
     own_client)
  /\ _async_send_command (always (Reply login_ok)) test_loads test_dumps
       (PyList [PyInt 1]) own_client
     = (Returns (PyDict {[ "_async_send_command" := PyStr "Payload is not a dictionary" ]}),
        own_client).
Proof.
  apply (send_command_not_a_dictionary (always (Reply login_ok))
           test_loads test_dumps (PyList [PyInt 1]) own_client 0%nat);
    reflexivity.
Defined.

(** A login that returns has sent the login request, changed nothing
    else, and returns a non-empty cookie. *)
Lemma _async_login_returns network st cookie st1 :
  _async_login network st = (Returns cookie, st1) ->
  st1 = record_sent (login_request (self st)) st /\ str_truthy cookie = true.
Proof.
  unfold _async_login, require_session, self_session_post, ClientSession_post,
    try_except, bind, get, ret, raise, session_not_initialized.
  intros H.
  repeat (case_match; simplify_eq/=); split; try done.
  all: match goal with
       | H : negb (opt_str_truthy ?c) = false |- _ =>
           destruct c as [[|? ?]|]; done
       end.
Qed.

(** The read operation up to its request: what is left to run in the
    state [st1] in which the request goes out. *)
Lemma async_get_raw_data_func_ready network json_loads st st1 session :
  _session (self st) = Some session ->
  ready_to_read network st st1 ->
  _session (self st1) = Some session
  /\ opt_str_truthy (_session_cookie (self st1)) = true
  /\ async_get_raw_data_func network json_loads st
     = (let* resp := self_session_post network (read_request (self st1)) in
        let* data := json_loads_or_raise json_loads (resp_text resp) in
        let* group_data := py_get data "GetResGroupData" (PyDict ∅) in
        let* floors := py_get group_data "FloorData" (PyList [PyDict ∅]) in
        let* floor_data := py_getitem_0 floors in
        let* floor_no := py_get floor_data "FloorNo" PyNone in
        if py_eq_str floor_no "-1" then
          raise (Exn SessionExpiredException [] None)
        else
          py_get floor_data "GroupData" (PyDict ∅)) st1.
Proof.
  intros Hs Hready. unfold async_get_raw_data_func.
  rewrite (bind_returns _ _ _ _ _ (require_session_some _ _ Hs)), bind_get.
  destruct Hready as [Hc | cookie st1 Hc Hlogin].
  - rewrite Hc. cbn [negb]. rewrite bind_ret, bind_get, try_except_reraise.
    done.
  - rewrite Hc. cbn [negb].
    assert (Hpre : bind (async_login network)
                     (fun c => modify (assign_session_cookie c)) st
                   = (Returns tt, assign_session_cookie cookie st1))
      by (by rewrite (bind_returns _ _ _ _ _ Hlogin)).
    rewrite (bind_returns _ _ _ _ _ Hpre), bind_get, try_except_reraise.
    apply _async_login_returns in Hlogin as [-> Hne].
    split; [done|]. split; [|done]. cbn. done.
Qed.

(** C4.  Read state, once the device has answered the read request with a
    body that parses: the operation goes to
    [GetResGroupData.FloorData[0]] (with the defaults of the two [get]
    calls); when that element's [FloorNo] is the string -1 it raises
    [SessionExpiredException], and otherwise it returns the element's
    [GroupData], or the empty mapping when there is none.  In the second
    case the wrapped operation returns the same. *)
Theorem async_get_raw_data_navigates
    (network : list request -> request -> reply)
    (json_loads : string -> option pyval)
    (st st1 : state) (session : session_ref) (resp : response)
    (data group_data floor_data : gmap string pyval) (rest : list pyval) :
  _session (self st) = Some session ->
  ready_to_read network st st1 ->
  sessions st1 !! session = Some false ->
  network (sent st1) (read_request (self st1)) = Reply resp ->
  json_loads (resp_text resp) = Some (PyDict data) ->
  from_option id (PyDict ∅) (data !! "GetResGroupData") = PyDict group_data ->
  from_option id (PyList [PyDict ∅]) (group_data !! "FloorData")
  = PyList (PyDict floor_data :: rest) ->
  let st' := record_sent (read_request (self st1)) st1 in
  let result := from_option id (PyDict ∅) (floor_data !! "GroupData") in
  (floor_data !! "FloorNo" = Some (PyStr "-1") ->
     async_get_raw_data_func network json_loads st
     = (Raises (Exn SessionExpiredException [] None), st'))
  /\ (floor_data !! "FloorNo" ≠ Some (PyStr "-1") ->
        async_get_raw_data_func network json_loads st = (Returns result, st')
        /\ async_get_raw_data network json_loads st = (Returns result, st')).
Proof.
  intros Hs Hready Ho Hr Hj Hg Hf st' result.
  destruct (async_get_raw_data_func_ready network json_loads st st1 session
              Hs Hready) as (Hs1 & _ & Hrun).
  assert (Hstep : async_get_raw_data_func network json_loads st
    = if py_eq_str (from_option id PyNone (floor_data !! "FloorNo")) "-1"
      then (Raises (Exn SessionExpiredException [] None), st')
      else (Returns result, st')).
  { rewrite Hrun.
    rewrite (bind_returns _ _ _ _ _
               (self_session_post_reply network _ _ _ _ Hs1 Ho Hr)).
    fold st'. unfold json_loads_or_raise. rewrite Hj, bind_ret.
    unfold py_get at 1. rewrite bind_ret, Hg.
    unfold py_get at 1. rewrite bind_ret, Hf.
    unfold py_getitem_0. cbn [lookup list_lookup]. rewrite bind_ret.
    unfold py_get at 1. rewrite bind_ret.
    by destruct (py_eq_str _ _). }
  split.
  - intros Hno. by rewrite Hstep, Hno.
  - intros Hno.
    assert (Hret : async_get_raw_data_func network json_loads st
                   = (Returns result, st')).
    { rewrite Hstep.
      destruct (floor_data !! "FloorNo") as [[]|] eqn:Hfn; try done.
      cbn. rewrite bool_decide_eq_false_2; [done|]. congruence. }
    split; [done|]. by apply reauth_retry_returns_3.
Qed.

(** The unit test [test_get_raw_data_success]: floor 1 with the group
    data that maps test to data. *)
Lemma async_get_raw_data_navigates_witness :
  let network := device (Reply (Response 200 no_headers floor_1_text)) in
  let st := logged_in own_client in
  async_get_raw_data_func network test_loads st
  = (Returns (PyDict {[ "test" := PyStr "data" ]}),
     record_sent (read_request (self st)) st)
  /\ async_get_raw_data network test_loads st
     = (Returns (PyDict {[ "test" := PyStr "data" ]}),
        record_sent (read_request (self st)) st).
Proof.
  intros network st.
  refine (proj2 (async_get_raw_data_navigates network test_loads st st 0%nat
            (Response 200 no_headers floor_1_text)
            {[ "GetResGroupData" :=
                 PyDict {[ "FloorData" :=
                   PyList [PyDict {[ "FloorNo" := PyStr "1";
                                     "GroupData" := PyDict {[ "test" := PyStr "data" ]} ]}] ]} ]}
            {[ "FloorData" :=
                 PyList [PyDict {[ "FloorNo" := PyStr "1";
                                   "GroupData" := PyDict {[ "test" := PyStr "data" ]} ]}] ]}
            {[ "FloorNo" := PyStr "1";
               "GroupData" := PyDict {[ "test" := PyStr "data" ]} ]}
            [] _ _ _ _ _ _ _) _).
  - reflexivity.
  - apply cookie_held. reflexivity.
  - reflexivity.
  - reflexivity.
  - vm_compute. reflexivity.
  - vm_compute. reflexivity.
  - vm_compute. reflexivity.
  - vm_compute. discriminate.
Defined.

(** C9.  Read state, when the parsed body holds the empty list under
    [GetResGroupData.FloorData]: indexing it raises an [IndexError], which
    is none of the classes of the module and is not among those the
    operation catches; it reaches the caller of the wrapped operation as it
    is, after the one request. *)
Theorem async_get_raw_data_empty_floor_data
    (network : list request -> request -> reply)
    (json_loads : string -> option pyval)
    (st st1 : state) (session : session_ref) (resp : response)
    (data group_data : gmap string pyval) :
  _session (self st) = Some session ->
  ready_to_read network st st1 ->
  sessions st1 !! session = Some false ->
  network (sent st1) (read_request (self st1)) = Reply resp ->
  json_loads (resp_text resp) = Some (PyDict data) ->
  data !! "GetResGroupData" = Some (PyDict group_data) ->
  group_data !! "FloorData" = Some (PyList []) ->
  let st' := record_sent (read_request (self st1)) st1 in
  let index_error := Exn (OtherException "IndexError") ["list index out of range"] None in
  async_get_raw_data_func network json_loads st = (Raises index_error, st')
  /\ async_get_raw_data network json_loads st = (Raises index_error, st').
Proof.
  intros Hs Hready Ho Hr Hj Hg Hf st' index_error.
  destruct (async_get_raw_data_func_ready network json_loads st st1 session
              Hs Hready) as (Hs1 & _ & Hrun).
  assert (Hraise : async_get_raw_data_func network json_loads st
                   = (Raises index_error, st')).
  { rewrite Hrun.
    rewrite (bind_returns _ _ _ _ _
               (self_session_post_reply network _ _ _ _ Hs1 Ho Hr)).
    fold st'. unfold json_loads_or_raise. rewrite Hj, bind_ret.
    unfold py_get at 1. rewrite bind_ret, Hg. cbn [from_option id].
    unfold py_get at 1. rewrite bind_ret, Hf. done. }
  split; [done|]. by apply reauth_retry_propagates_3.
Qed.

(** A body whose [FloorData] is the empty list. *)
Lemma async_get_raw_data_empty_floor_data_witness :
  let network := device (Reply (Response 200 no_headers no_floors_text)) in
  let st := logged_in own_client in
  async_get_raw_data_func network test_loads st
  = (Raises (Exn (OtherException "IndexError") ["list index out of range"] None),
     record_sent (read_request (self st)) st)
  /\ async_get_raw_data network test_loads st
     = (Raises (Exn (OtherException "IndexError") ["list index out of range"] None),
        record_sent (read_request (self st)) st).
Proof.
  intros network st.
  refine (async_get_raw_data_empty_floor_data network test_loads st st 0%nat
            (Response 200 no_headers no_floors_text)
            {[ "GetResGroupData" := PyDict {[ "FloorData" := PyList [] ]} ]}
            {[ "FloorData" := PyList [] ]}
            _ _ _ _ _ _ _).
  - reflexivity.
  - apply cookie_held. reflexivity.
  - reflexivity.
  - reflexivity.
  - vm_compute. reflexivity.
  - vm_compute. reflexivity.
  - vm_compute. reflexivity.
Defined.

(** ** [strip] and white space *)

Lemma py_lstrip_whitespace_only s :
  whitespace_only s = true -> py_lstrip s = "".
Proof.
  induction s as [|c s IH]; [done|]. cbn.
  destruct (py_isspace c); [apply IH|done].
Qed.

Lemma py_lstrip_other s :
  whitespace_only s = false ->
  exists c s', py_lstrip s = String c s' /\ py_isspace c = false.
Proof.
  induction s as [|c s IH]; [done|]. cbn.
  destruct (py_isspace c) eqn:Hc; [apply IH|]. intros _. by exists c, s.
Qed.

Lemma whitespace_only_rev_app s1 s2 :
  whitespace_only (String.rev_app s1 s2)
  = whitespace_only s1 && whitespace_only s2.
Proof.
  revert s2. induction s1 as [|c s1 IH]; intros s2; [done|].
  cbn. rewrite IH. cbn. by destruct (py_isspace c), (whitespace_only s1).
Qed.

Lemma rev_app_truthy s1 s2 :
  str_truthy s2 = true -> str_truthy (String.rev_app s1 s2) = true.
Proof.
  revert s2. induction s1 as [|c s1 IH]; intros s2; [done|].
  intros _. cbn. by apply IH.
Qed.

(** [not s.strip()] holds exactly when [s] is empty or white space only. *)
Lemma py_strip_truthy s :
  str_truthy (py_strip s) = negb (whitespace_only s).
Proof.
  unfold py_strip. destruct (whitespace_only s) eqn:Hw.
  - by rewrite (py_lstrip_whitespace_only _ Hw).
  - destruct (py_lstrip_other _ Hw) as (c & s' & -> & Hc).
    unfold String.rev at 2. cbn [String.rev_app].
    destruct (py_lstrip_other (String.rev_app s' (String c ""))) as (c2 & s2 & -> & _).
    { rewrite whitespace_only_rev_app. cbn. rewrite Hc.
      by destruct (whitespace_only s'). }
    unfold String.rev. cbn [String.rev_app]. by apply rev_app_truthy.
Qed.

(** C5.  The send primitive, once the device has answered the request:
    with status 200 and a body that is not empty or white space only it
    returns the parsed body as it is; with status 200 and a body that is
    empty or white space only it raises [SessionExpiredException], which
    the coordinator handles as the first of its attempts; with any other
    status it raises [ApiCallFailedException] with the status in its
    message, and the wrapped operation raises the same after that one
    request, with no login. *)
Theorem send_command_outcome
    (network : list request -> request -> reply)
    (json_loads : string -> option pyval) (json_dumps : pyval -> string)
    (payload : pyval) (st : state) (session : session_ref) (resp : response) :
  is_dict payload = true ->
  _session (self st) = Some session ->
  sessions st !! session = Some false ->
  network (sent st) (send_request json_dumps (self st) payload) = Reply resp ->
  let st' := record_sent (send_request json_dumps (self st) payload) st in
  let func := _async_send_command_func network json_loads json_dumps payload in
  let expired := Exn SessionExpiredException [] None in
  let failed :=
    Exn ApiCallFailedException
      ["Command failed with HTTP " ++ fmt_int (resp_status resp) ++ "."] None in
  (forall v,
      resp_status resp = 200 ->
      whitespace_only (resp_text resp) = false ->
      json_loads (resp_text resp) = Some v ->
      func st = (Returns v, st')
      /\ _async_send_command network json_loads json_dumps payload st
         = (Returns v, st'))
  /\ (resp_status resp = 200 ->
      whitespace_only (resp_text resp) = true ->
      func st = (Raises expired, st')
      /\ _async_send_command network json_loads json_dumps payload st
         = on_session_expired (_async_login network) assign_session_cookie 3 0
             (wrapper_loop (_async_login network) assign_session_cookie 3 func
                [1; 2; 3])
             expired st')
  /\ (resp_status resp ≠ 200 ->
      func st = (Raises failed, st')
      /\ _async_send_command network json_loads json_dumps payload st
         = (Raises failed, st')).
Proof.
  intros Hd Hs Ho Hr st' func expired failed.
  assert (Hstep : func st
    = if bool_decide (resp_status resp ≠ 200) then (Raises failed, st')
      else if whitespace_only (resp_text resp) then (Raises expired, st')
      else json_loads_or_raise json_loads (resp_text resp) st').
  { unfold func, _async_send_command_func.
    rewrite (bind_returns _ _ _ _ _ (require_session_some _ _ Hs)), Hd.
    cbn [negb]. rewrite bind_get, try_except_reraise.
    rewrite (bind_returns _ _ _ _ _
               (self_session_post_reply network _ _ _ _ Hs Ho Hr)).
    fold st'. case_bool_decide; [done|].
    rewrite py_strip_truthy, negb_involutive.
    by destruct (whitespace_only _). }
  split; [|split].
  - intros v Hst Hw Hj.
    assert (Hret : func st = (Returns v, st')).
    { rewrite Hstep, bool_decide_eq_false_2, Hw by (intros ?; done).
      unfold json_loads_or_raise. by rewrite Hj. }
    split; [done|]. by apply reauth_retry_returns_3.
  - intros Hst Hw.
    assert (Hexp : func st = (Raises expired, st')).
    { by rewrite Hstep, bool_decide_eq_false_2, Hw by (intros ?; done). }
    split; [done|].
    unfold _async_send_command, reauth_retry, wrapper.
    change (py_range (3 + 1)) with [0; 1; 2; 3].
    by apply loop_handles.
  - intros Hst.
    assert (Hfail : func st = (Raises failed, st')).
    { by rewrite Hstep, bool_decide_eq_true_2. }
    split; [done|]. by apply reauth_retry_propagates_3.
Qed.

(** The unit test [test_send_command_success]: status 200 and the body
    that maps success to true. *)
Lemma send_command_outcome_witness :
  let network := device (Reply (Response 200 no_headers success_text)) in
  let st := logged_in own_client in
  let st' := record_sent (send_request test_dumps (self st) (PyDict ∅)) st in
  _async_send_command_func network test_loads test_dumps (PyDict ∅) st
  = (Returns success_value, st')
  /\ _async_send_command network test_loads test_dumps (PyDict ∅) st
     = (Returns success_value, st').
Proof.
  intros network st st'.
  refine (proj1 (send_command_outcome network test_loads test_dumps
                   (PyDict ∅) st 0%nat (Response 200 no_headers success_text)
                   _ _ _ _) success_value _ _ _).
  - reflexivity.
  - reflexivity.
  - reflexivity.
  - reflexivity.
  - reflexivity.
  - vm_compute. reflexivity.
  - vm_compute. reflexivity.
Defined.

(** ** Further properties of the coordinator *)

(** With a budget that is not negative, an operation that returns on its
    first attempt is run once and its result and state come out as they
    are, whatever the login is. *)
Theorem reauth_retry_first_attempt_returns
    {St T : Type} (login : M St string) (set_cookie : string -> St -> St)
    (func : M St T) (n : Z) (s s' : St) (v : T) :
  0 <= n ->
  func s = (Returns v, s') ->
  reauth_retry login set_cookie n func s = (Returns v, s').
Proof.
  intros Hn Hf. unfold reauth_retry, wrapper. rewrite py_range_succ by done.
  by apply loop_returns.
Qed.

Lemma reauth_retry_first_attempt_returns_witness :
  reauth_retry mock_login mock_set_cookie 0 (mock_func 0 "done") (Mock 0 0 None)
  = (Returns "done", Mock 1 0 None).
Proof.
  apply (reauth_retry_first_attempt_returns mock_login mock_set_cookie
           (mock_func 0 "done") 0 (Mock 0 0 None)).
  - lia.
  - reflexivity.
Defined.

Section bounds.
Context {St T : Type}.
Variable login : M St string.
Variable set_cookie : string -> St -> St.
Variable func : M St T.
Variables calls logins : St -> nat.

Hypothesis func_counted :
  forall s1 o s2, func s1 = (o, s2) ->
    calls s2 = S (calls s1) /\ logins s2 = logins s1.
Hypothesis login_counted :
  forall s1 o s2, login s1 = (o, s2) ->
    logins s2 = S (logins s1) /\ calls s2 = calls s1.
Hypothesis set_cookie_uncounted :
  forall cookie s1,
    calls (set_cookie cookie s1) = calls s1
    /\ logins (set_cookie cookie s1) = logins s1.

(** The loop over the attempts [first, ..., first + more], whatever the
    operation and the login do. *)
Lemma loop_bounded (max_retries : Z) (more : nat) :
  forall (first : nat) s o s',
    Z.of_nat (first + more) = max_retries ->
    wrapper_loop login set_cookie max_retries func
      (Z.of_nat <$> seq first (S more)) s = (o, s') ->
    (calls s < calls s' <= calls s + more + 1)%nat
    /\ (logins s <= logins s' <= logins s + more)%nat
    /\ (logins s' - logins s <= calls s' - calls s)%nat.
Proof.
  induction more as [|more IH]; intros first s o s' Hn.
  - cbn [seq fmap list_fmap wrapper_loop]. unfold try_except.
    destruct (func s) as [[v|e] s1] eqn:Hf;
      destruct (func_counted _ _ _ Hf) as [Hc Hl].
    + intros [= <- <-]. lia.
    + destruct (is_session_expired e).
      * unfold on_session_expired.
        rewrite bool_decide_eq_false_2 by lia.
        intros [= <- <-]. lia.
      * intros [= <- <-]. lia.
  - change (seq first (S (S more))) with (first :: seq (S first) (S more)).
    rewrite fmap_cons. cbn [wrapper_loop]. unfold try_except.
    destruct (func s) as [[v|e] s1] eqn:Hf;
      destruct (func_counted _ _ _ Hf) as [Hc Hl].
    + intros [= <- <-]. lia.
    + destruct (is_session_expired e).
      * unfold on_session_expired.
        rewrite bool_decide_eq_true_2 by lia.
        unfold bind at 1.
        destruct (login s1) as [[cookie|e'] s2] eqn:Hlog;
          destruct (login_counted _ _ _ Hlog) as [Hl2 Hc2].
        -- rewrite bind_modify. intros Hrun.
           destruct (set_cookie_uncounted cookie s2) as [Hc3 Hl3].
           apply IH in Hrun; [|lia]. lia.
        -- intros [= <- <-]. lia.
      * intros [= <- <-]. lia.
Qed.
End bounds.

(** Whatever the wrapped operation and the login do, with a budget
    n >= 0 the coordinator runs the operation at least once and at most
    n+1 times, runs the login at most n times, and never runs more logins
    than operations. *)
Theorem reauth_retry_bounded
    {St T : Type} (login : M St string) (set_cookie : string -> St -> St)
    (func : M St T) (calls logins : St -> nat) (n : Z) (s s' : St)
    (o : outcome T) :
  0 <= n ->
  (forall s1 o1 s2, func s1 = (o1, s2) ->
     calls s2 = S (calls s1) /\ logins s2 = logins s1) ->
  (forall s1 o1 s2, login s1 = (o1, s2) ->
     logins s2 = S (logins s1) /\ calls s2 = calls s1) ->
  (forall cookie s1,
     calls (set_cookie cookie s1) = calls s1
     /\ logins (set_cookie cookie s1) = logins s1) ->
  reauth_retry login set_cookie n func s = (o, s') ->
  (calls s < calls s' <= calls s + Z.to_nat n + 1)%nat
  /\ (logins s <= logins s' <= logins s + Z.to_nat n)%nat
  /\ (logins s' - logins s <= calls s' - calls s)%nat.
Proof.
  intros Hn Hfunc Hlogin Hset. unfold reauth_retry, wrapper.
  rewrite py_range_succ by done.
  apply (loop_bounded login set_cookie func calls logins Hfunc Hlogin Hset
           n (Z.to_nat n) 0%nat). lia.
Qed.

(** One expiry, then success, under a budget of three. *)
Lemma reauth_retry_bounded_witness :
  let s' := (reauth_retry mock_login mock_set_cookie 3 (mock_func 1 "done")
               (Mock 0 0 None)).2 in
  (0 < func_calls s' <= 0 + Z.to_nat 3 + 1)%nat
  /\ (0 <= login_calls s' <= 0 + Z.to_nat 3)%nat
  /\ (login_calls s' - 0 <= func_calls s' - 0)%nat.
Proof.
  intros s'.
  apply (reauth_retry_bounded mock_login mock_set_cookie (mock_func 1 "done")
           func_calls login_calls 3 (Mock 0 0 None) s'
           (reauth_retry mock_login mock_set_cookie 3 (mock_func 1 "done")
              (Mock 0 0 None)).1).
  - lia.
  - intros s1 o1 s2. unfold mock_func. case_bool_decide; intros [= <- <-]; done.
  - intros s1 o1 s2. intros [= <- <-]. done.
  - intros cookie s1. done.
  - reflexivity.
Defined.

(** ** What a computation keeps *)

Section keeps_facts.
Context {St : Type} (R : St -> St -> Prop) `{!PreOrder R}.

Lemma keeps_ret {T} (v : T) : keeps R (ret v).
Proof. intros s o s' [= <- <-]. done. Qed.

Lemma keeps_raise {T} (e : exn) : keeps R (raise e : M St T).
Proof. intros s o s' [= <- <-]. done. Qed.

Lemma keeps_get : keeps R get.
Proof. intros s o s' [= <- <-]. done. Qed.

Lemma keeps_modify (f : St -> St) :
  (forall s, R s (f s)) -> keeps R (modify f).
Proof. intros Hf s o s' [= <- <-]. apply Hf. Qed.

Lemma keeps_bind {A B} (m : M St A) (k : A -> M St B) :
  keeps R m -> (forall a, keeps R (k a)) -> keeps R (bind m k).
Proof.
  intros Hm Hk s o s'. unfold bind.
  destruct (m s) as [[a|e] s1] eqn:Hms.
  - intros Hks. etrans; [by eapply Hm|by eapply Hk].
  - intros [= <- <-]. by eapply Hm.
Qed.

Lemma keeps_try_except {T} (body : M St T) catches handler :
  keeps R body -> (forall e, keeps R (handler e)) ->
  keeps R (try_except body catches handler).
Proof.
  intros Hb Hh s o s'. unfold try_except.
  destruct (body s) as [[v|e] s1] eqn:Hbs.
  - intros [= <- <-]. by eapply Hb.
  - destruct (catches e).
    + intros Hhs. etrans; [by eapply Hb|by eapply Hh].
    + intros [= <- <-]. by eapply Hb.
Qed.

(** The loop of the coordinator keeps what the operation, the login and
    the assignment of the cookie keep. *)
Lemma keeps_wrapper_loop {T} (login : M St string)
    (set_cookie : string -> St -> St) (max_retries : Z) (func : M St T)
    (attempts : list Z) :
  keeps R func -> keeps R login -> (forall c s, R s (set_cookie c s)) ->
  keeps R (wrapper_loop login set_cookie max_retries func attempts).
Proof.
  intros Hfunc Hlogin Hset.
  induction attempts as [|attempt rest IH]; cbn [wrapper_loop].
  - apply keeps_raise.
  - apply keeps_try_except; [done|]. intros e. unfold on_session_expired.
    case_bool_decide; [|apply keeps_raise].
    apply keeps_bind; [done|]. intros cookie.
    apply keeps_bind; [by apply keeps_modify|]. by intros _.
Qed.
End keeps_facts.

#[local] Instance only_talks_preorder : PreOrder only_talks.
Proof.
  split.
  - intros st. by repeat split.
  - intros st1 st2 st3 (Hi & Hs & Hp) (Hi' & Hs' & Hp').
    unfold only_talks, same_identity in *. destruct_and!.
    repeat split; try congruence. by etrans.
Qed.

Lemma only_talks_record_sent req st : only_talks st (record_sent req st).
Proof.
  repeat split. cbn. by apply prefix_app_r.
Qed.

Lemma only_talks_assign cookie st :
  only_talks st (assign_session_cookie cookie st).
Proof. by repeat split. Qed.

Section device_keeps.
Variable network : list request -> request -> reply.
Variable json_loads : string -> option pyval.
Variable json_dumps : pyval -> string.

Lemma keeps_self_session_post req :
  keeps only_talks (self_session_post network req).
Proof.
  intros st o st'.
  unfold self_session_post, ClientSession_post, bind, get, raise.
  repeat case_match; intros [= <- <-];
    first [reflexivity | apply only_talks_record_sent].
Qed.

Lemma keeps_require_session : keeps only_talks require_session.
Proof.
  intros st o st'. unfold require_session, bind, get, ret, raise.
  case_match; intros [= <- <-]; reflexivity.
Qed.

Lemma keeps_json_loads_or_raise text :
  keeps only_talks (json_loads_or_raise json_loads text).
Proof.
  unfold json_loads_or_raise. case_match;
    [apply keeps_ret | apply keeps_raise]; apply _.
Qed.

Lemma keeps_py_get v key default :
  keeps only_talks (py_get v key default : M state pyval).
Proof.
  intros st o st'. unfold py_get, ret, raise.
  case_match; intros [= <- <-]; reflexivity.
Qed.

Lemma keeps_py_getitem_0 v : keeps only_talks (py_getitem_0 v : M state pyval).
Proof.
  intros st o st'. unfold py_getitem_0, ret, raise.
  repeat case_match; intros [= <- <-]; reflexivity.
Qed.

Ltac keeps_step :=
  first
    [ apply keeps_ret; apply _
    | apply keeps_raise; apply _
    | apply keeps_get; apply _
    | apply keeps_require_session
    | apply keeps_self_session_post
    | apply keeps_json_loads_or_raise
    | apply keeps_py_get
    | apply keeps_py_getitem_0
    | apply keeps_modify; intros ?; apply only_talks_assign
    | apply keeps_bind; [apply _ | | intros ?]
    | apply keeps_try_except; [apply _ | | intros ?]
    | match goal with
      | |- keeps _ (if ?b then _ else _) => destruct b
      | |- keeps _ (match ?x with _ => _ end) => destruct x
      end ].

Lemma keeps_async_login : keeps only_talks (_async_login network).
Proof. unfold _async_login. repeat keeps_step. Qed.

Lemma keeps_async_get_raw_data_func :
  keeps only_talks (async_get_raw_data_func network json_loads).
Proof.
  unfold async_get_raw_data_func, async_login.
  repeat first [apply keeps_async_login | keeps_step].
Qed.

Lemma keeps_async_send_command_func payload :
  keeps only_talks (_async_send_command_func network json_loads json_dumps payload).
Proof. unfold _async_send_command_func. repeat keeps_step. Qed.

Lemma keeps_async_get_raw_data :
  keeps only_talks (async_get_raw_data network json_loads).
Proof.
  apply keeps_wrapper_loop; [apply _| | |].
  - apply keeps_async_get_raw_data_func.
  - apply keeps_async_login.
  - intros c s. apply only_talks_assign.
Qed.

Lemma keeps_async_send_command payload :
  keeps only_talks (_async_send_command network json_loads json_dumps payload).
Proof.
  apply keeps_wrapper_loop; [apply _| | |].
  - apply keeps_async_send_command_func.
  - apply keeps_async_login.
  - intros c s. apply only_talks_assign.
Qed.
End device_keeps.

(** ** The device operations, by what the device answers *)

Section device_runs.
Variable network : list request -> request -> reply.
Variable json_loads : string -> option pyval.
Variable json_dumps : pyval -> string.

Lemma self_session_post_run st session req :
  _session (self st) = Some session ->
  sessions st !! session = Some false ->
  self_session_post network req st
  = match network (sent st) req with
    | Reply resp => (Returns resp, record_sent req st)
    | TransportFailure cls args =>
        (Raises (Exn (OtherException cls) args None), record_sent req st)
    end.
Proof.
  intros Hs Ho. unfold self_session_post, ClientSession_post, bind, get.
  by rewrite Hs, Ho.
Qed.

Lemma _async_login_run st session :
  _session (self st) = Some session ->
  sessions st !! session = Some false ->
  _async_login network st
  = let st' := record_sent (login_request (self st)) st in
    match network (sent st) (login_request (self st)) with
    | Reply resp =>
        if bool_decide (resp_status resp ≠ 302) then
          (Raises (Exn LoginFailedException
                     ["Login failed with status " ++ fmt_int (resp_status resp)]
                     None), st')
        else if negb (opt_str_truthy (resp_headers_get resp "Set-Cookie")) then
          (Raises no_session_cookie, st')
        else (Returns (default "" (resp_headers_get resp "Set-Cookie")), st')
    | TransportFailure cls args =>
        (Raises (Exn (OtherException cls) args None), st')
    end.
Proof.
  intros Hs Ho. unfold _async_login.
  rewrite (bind_returns _ _ _ _ _ (require_session_some _ _ Hs)), bind_get.
  rewrite try_except_reraise. unfold bind.
  rewrite (self_session_post_run _ _ _ Hs Ho). cbn zeta.
  destruct (network _ _) as [resp|cls args]; [|done].
  case_bool_decide; [done|]. by destruct (negb _).
Qed.

Lemma _async_send_command_func_run st session payload :
  is_dict payload = true ->
  _session (self st) = Some session ->
  sessions st !! session = Some false ->
  _async_send_command_func network json_loads json_dumps payload st
  = let req := send_request json_dumps (self st) payload in
    let st' := record_sent req st in
    match network (sent st) req with
    | Reply resp =>
        if bool_decide (resp_status resp ≠ 200) then
          (Raises (Exn ApiCallFailedException
                     ["Command failed with HTTP " ++ fmt_int (resp_status resp) ++ "."]
                     None), st')
        else if whitespace_only (resp_text resp) then
          (Raises (Exn SessionExpiredException [] None), st')
        else
          match json_loads (resp_text resp) with
          | Some v => (Returns v, st')
          | None => (Raises (Exn JSONDecodeError [] None), st')
          end
    | TransportFailure cls args =>
        (Raises (Exn (OtherException cls) args None), st')
    end.
Proof.
  intros Hd Hs Ho. unfold _async_send_command_func.
  rewrite (bind_returns _ _ _ _ _ (require_session_some _ _ Hs)), Hd.
  cbn [negb]. rewrite bind_get, try_except_reraise. unfold bind.
  rewrite (self_session_post_run _ _ _ Hs Ho). cbn zeta.
  destruct (network _ _) as [resp|cls args]; [|done].
  case_bool_decide; [done|].
  rewrite py_strip_truthy, negb_involutive.
  destruct (whitespace_only _); [done|].
  unfold json_loads_or_raise. by destruct (json_loads _).
Qed.

(** The navigation never touches the state. *)
Lemma navigate_pure data st : navigate data st = ((navigate data st).1, st).
Proof.
  unfold navigate, py_get, py_getitem_0, bind, ret, raise.
  repeat (case_match; simplify_eq/=); done.
Qed.

(** The read operation from the state [st1] in which its request goes
    out. *)
Lemma async_get_raw_data_func_run st st1 session :
  _session (self st) = Some session ->
  ready_to_read network st st1 ->
  sessions st1 !! session = Some false ->
  async_get_raw_data_func network json_loads st
  = let req := read_request (self st1) in
    let st' := record_sent req st1 in
    match network (sent st1) req with
    | Reply resp =>
        match json_loads (resp_text resp) with
        | Some data => ((navigate data st').1, st')
        | None => (Raises (Exn JSONDecodeError [] None), st')
        end
    | TransportFailure cls args =>
        (Raises (Exn (OtherException cls) args None), st')
    end.
Proof.
  intros Hs Hready Ho.
  destruct (async_get_raw_data_func_ready network json_loads st st1 session
              Hs Hready) as (Hs1 & _ & ->).
  unfold bind at 1. rewrite (self_session_post_run _ _ _ Hs1 Ho). cbn zeta.
  destruct (network _ _) as [resp|cls args]; [|done].
  unfold json_loads_or_raise.
  destruct (json_loads _) as [data|]; [|done].
  rewrite bind_ret. apply navigate_pure.
Qed.
End device_runs.

Lemma ready_to_read_sessions network st st1 :
  ready_to_read network st st1 ->
  sessions st1 = sessions st /\ _session (self st1) = _session (self st).
Proof.
  intros [Hc | cookie st0 Hc Hlogin]; [done|].
  by apply _async_login_returns in Hlogin as [-> _].
Qed.

(** ** Further properties of the device operations *)

(** Login, read state, the send primitive and its two callers only talk to
    the device: whatever they return or raise, the credentials, the two
    URLs, the transport session held and its ownership flag are as before,
    no session on the heap has been closed or opened, and the requests
    sent before are still the first ones of the log. *)
Theorem device_operations_only_talk
    (network : list request -> request -> reply)
    (json_loads : string -> option pyval) (json_dumps : pyval -> string)
    (payload : pyval) (group_no : string) (properties : gmap string pyval)
    (st st' : state) :
  (exists o, async_login network st = (o, st'))
  \/ (exists o, async_get_raw_data network json_loads st = (o, st'))
  \/ (exists o, _async_send_command network json_loads json_dumps payload st
                = (o, st'))
  \/ (exists o, async_set_group_property network json_loads json_dumps
                  group_no properties st = (o, st'))
  \/ (exists o, async_set_all_property network json_loads json_dumps
                  properties st = (o, st')) ->
  same_identity (self st) (self st')
  /\ sessions st' = sessions st
  /\ sent st `prefix_of` sent st'.
Proof.
  intros [[o H]|[[o H]|[[o H]|[[o H]|[o H]]]]].
  - by eapply keeps_async_login.
  - by eapply keeps_async_get_raw_data.
  - by eapply keeps_async_send_command.
  - by eapply keeps_async_send_command.
  - by eapply keeps_async_send_command.
Qed.

(** A read that succeeds on a client that holds a cookie. *)
Lemma device_operations_only_talk_witness :
  let st := logged_in own_client in
  let st' := record_sent (read_request (self st)) st in
  same_identity (self st) (self st')
  /\ sessions st' = sessions st
  /\ sent st `prefix_of` sent st'.
Proof.
  intros st st'.
  apply (device_operations_only_talk
           (device (Reply (Response 200 no_headers floor_1_text)))
           test_loads test_dumps PyNone "1" ∅ st st').
  right. left. eexists. vm_compute. reflexivity.
Defined.

(** [async_login] returns the cookie without storing it: the client object
    is as before, cookie included, and at most the login request has been
    sent. *)
Theorem async_login_stores_nothing
    (network : list request -> request -> reply)
    (st st' : state) (o : outcome string) :
  async_login network st = (o, st') ->
  self st' = self st
  /\ sessions st' = sessions st
  /\ (sent st' = sent st \/ sent st' = (sent st ++ [login_request (self st)])%list).
Proof.
  unfold async_login, _async_login, require_session, self_session_post,
    ClientSession_post, try_except, bind, get, ret, raise.
  intros H.
  repeat (case_match; simplify_eq/=); eauto.
Qed.

(** A successful login on a client that holds no cookie: none is held
    afterwards either. *)
Lemma async_login_stores_nothing_witness :
  let st' := record_sent (login_request (self own_client)) own_client in
  self st' = self own_client
  /\ sessions st' = sessions own_client
  /\ (sent st' = sent own_client
      \/ sent st' = (sent own_client ++ [login_request (self own_client)])%list).
Proof.
  intros st'.
  apply (async_login_stores_nothing (always (Reply login_ok)) own_client st'
           (Returns "session=123")).
  reflexivity.
Defined.

(** An exception of the transport (a timeout, a client error) on the
    request of login, of read state or of the send primitive reaches the
    caller as it is, through the coordinator too: that request is the last
    one sent, so there is no login and no retry after it. *)
Theorem transport_failure_propagates
    (network : list request -> request -> reply)
    (json_loads : string -> option pyval) (json_dumps : pyval -> string)
    (payload : pyval) (st st1 : state) (session : session_ref)
    (cls : string) (args : list string) :
  _session (self st) = Some session ->
  sessions st !! session = Some false ->
  let failure := Exn (OtherException cls) args None in
  (network (sent st) (login_request (self st)) = TransportFailure cls args ->
     async_login network st
     = (Raises failure, record_sent (login_request (self st)) st))
  /\ (ready_to_read network st st1 ->
      network (sent st1) (read_request (self st1)) = TransportFailure cls args ->
      async_get_raw_data network json_loads st
      = (Raises failure, record_sent (read_request (self st1)) st1))
  /\ (is_dict payload = true ->
      network (sent st) (send_request json_dumps (self st) payload)
      = TransportFailure cls args ->
      _async_send_command network json_loads json_dumps payload st
      = (Raises failure,
         record_sent (send_request json_dumps (self st) payload) st)).
Proof.
  intros Hs Ho failure. split; [|split].
  - intros Hn. unfold async_login.
    by rewrite (_async_login_run network st session Hs Ho), Hn.
  - intros Hready Hn. apply reauth_retry_propagates_3; [|done].
    destruct (ready_to_read_sessions _ _ _ Hready) as [Hss _].
    rewrite (async_get_raw_data_func_run network json_loads st st1 session
               Hs Hready) by (by rewrite Hss).
    cbn zeta. by rewrite Hn.
  - intros Hd Hn. apply reauth_retry_propagates_3; [|done].
    rewrite (_async_send_command_func_run network json_loads json_dumps
               st session payload Hd Hs Ho).
    cbn zeta. by rewrite Hn.
Qed.

(** A timeout on the send request. *)
Lemma transport_failure_propagates_witness :
  let st := logged_in own_client in
  _async_send_command (always (TransportFailure "TimeoutError" [])) test_loads
    test_dumps (PyDict ∅) st
  = (Raises (Exn (OtherException "TimeoutError") [] None),
     record_sent (send_request test_dumps (self st) (PyDict ∅)) st).
Proof.
  intros st.
  apply (transport_failure_propagates
           (always (TransportFailure "TimeoutError" [])) test_loads test_dumps
           (PyDict ∅) st st 0%nat "TimeoutError" []); reflexivity.
Defined.

(** A body that is not JSON makes read state raise the [JSONDecodeError]
    of the codec, and so does the send primitive when the status is 200 and
    the body is not white space only; the coordinator passes it on after
    that one request, with no login and no retry.  The statement is about
    the class of the exception: its message is the codec's. *)
Theorem malformed_json_propagates
    (network : list request -> request -> reply)
    (json_loads : string -> option pyval) (json_dumps : pyval -> string)
    (payload : pyval) (st st1 : state) (session : session_ref)
    (resp : response) :
  _session (self st) = Some session ->
  sessions st !! session = Some false ->
  json_loads (resp_text resp) = None ->
  (ready_to_read network st st1 ->
   network (sent st1) (read_request (self st1)) = Reply resp ->
   exists e,
     async_get_raw_data network json_loads st
     = (Raises e, record_sent (read_request (self st1)) st1)
     /\ exn_cls e = OtherException "json.JSONDecodeError")
  /\ (is_dict payload = true ->
      network (sent st) (send_request json_dumps (self st) payload) = Reply resp ->
      resp_status resp = 200 ->
      whitespace_only (resp_text resp) = false ->
      exists e,
        _async_send_command network json_loads json_dumps payload st
        = (Raises e, record_sent (send_request json_dumps (self st) payload) st)
        /\ exn_cls e = OtherException "json.JSONDecodeError").
Proof.
  intros Hs Ho Hj. split.
  - intros Hready Hn. exists (Exn JSONDecodeError [] None). split; [|done].
    apply reauth_retry_propagates_3; [|done].
    destruct (ready_to_read_sessions _ _ _ Hready) as [Hss _].
    rewrite (async_get_raw_data_func_run network json_loads st st1 session
               Hs Hready) by (by rewrite Hss).
    cbn zeta. by rewrite Hn, Hj.
  - intros Hd Hn Hst Hw. exists (Exn JSONDecodeError [] None). split; [|done].
    apply reauth_retry_propagates_3; [|done].
    rewrite (_async_send_command_func_run network json_loads json_dumps
               st session payload Hd Hs Ho).
    cbn zeta. rewrite Hn, bool_decide_eq_false_2, Hw, Hj by (intros ?; done).
    done.
Qed.

(** A read answered with a page of HTML. *)
Lemma malformed_json_propagates_witness :
  let st := logged_in own_client in
  exists e,
    async_get_raw_data (device (Reply (Response 200 no_headers "<html>")))
      test_loads st
    = (Raises e, record_sent (read_request (self st)) st)
    /\ exn_cls e = OtherException "json.JSONDecodeError".
Proof.
  intros st.
  refine (proj1 (malformed_json_propagates
                   (device (Reply (Response 200 no_headers "<html>")))
                   test_loads test_dumps (PyDict ∅) st st 0%nat
                   (Response 200 no_headers "<html>") _ _ _) _ _).
  - reflexivity.
  - reflexivity.
  - vm_compute. reflexivity.
  - apply cookie_held. reflexivity.
  - reflexivity.
Defined.

(** A value the loop returns is the value of a run of the operation, in the
    state that run left. *)
Lemma loop_returns_from_func {St T} (login : M St string)
    (set_cookie : string -> St -> St) (max_retries : Z) (func : M St T)
    (attempts : list Z) s v s' :
  wrapper_loop login set_cookie max_retries func attempts s = (Returns v, s') ->
  exists s0, func s0 = (Returns v, s').
Proof.
  revert s. induction attempts as [|attempt rest IH]; intros s; [done|].
  cbn [wrapper_loop]. unfold try_except.
  destruct (func s) as [[v1|e] s1] eqn:Hf.
  - intros [= <- <-]. by exists s.
  - destruct (is_session_expired e); [|done].
    unfold on_session_expired. case_bool_decide; [|done].
    unfold bind at 1. destruct (login s1) as [[c|e'] s2]; [|done].
    rewrite bind_modify. apply IH.
Qed.

Lemma self_session_post_returns network req st resp st' :
  self_session_post network req st = (Returns resp, st') ->
  st' = record_sent req st.
Proof.
  unfold self_session_post, ClientSession_post, bind, get, raise.
  intros H. by repeat (case_match; simplify_eq/=).
Qed.

(** A run of the read operation that returns has sent the read request
    last, with the cookie the client holds. *)
Lemma async_get_raw_data_func_returns network json_loads st v st' :
  async_get_raw_data_func network json_loads st = (Returns v, st') ->
  opt_str_truthy (_session_cookie (self st')) = true
  /\ last (sent st') = Some (read_request (self st')).
Proof.
  intros Hrun.
  assert (exists session, _session (self st) = Some session) as [session Hs].
  { destruct (_session (self st)) as [session|] eqn:Hs; [by eexists|].
    unfold async_get_raw_data_func in Hrun.
    by rewrite (bind_raises _ _ _ _ _ (require_session_none _ Hs)) in Hrun. }
  assert (exists st1, ready_to_read network st st1) as [st1 Hready].
  { destruct (opt_str_truthy (_session_cookie (self st))) eqn:Hc.
    - exists st. by apply cookie_held.
    - destruct (async_login network st) as [[cookie|e] st0] eqn:Hlogin.
      + eexists. by eapply cookie_fetched.
      + unfold async_get_raw_data_func in Hrun.
        rewrite (bind_returns _ _ _ _ _ (require_session_some _ _ Hs)),
          bind_get, Hc in Hrun. cbn [negb] in Hrun.
        assert (Hpre : bind (async_login network)
                         (fun c => modify (assign_session_cookie c)) st
                       = (Raises e, st0))
          by (by rewrite (bind_raises _ _ _ _ _ Hlogin)).
        by rewrite (bind_raises _ _ _ _ _ Hpre) in Hrun. }
  destruct (async_get_raw_data_func_ready network json_loads st st1 session
              Hs Hready) as (Hs1 & Hc1 & Heq).
  rewrite Heq in Hrun. clear Heq. unfold bind at 1 in Hrun.
  destruct (self_session_post network (read_request (self st1)) st1)
    as [[resp|e] st2] eqn:Hpost; [|done].
  apply self_session_post_returns in Hpost as ->.
  unfold json_loads_or_raise in Hrun.
  destruct (json_loads (resp_text resp)) as [data|]; [|done].
  rewrite bind_ret in Hrun.
  change (navigate data (record_sent (read_request (self st1)) st1)
          = (Returns v, st')) in Hrun.
  rewrite navigate_pure in Hrun. injection Hrun as _ <-.
  split; [done|]. cbn. by rewrite last_snoc.
Qed.

(** Whenever read state returns a result, the client holds a non-empty
    cookie, and the last request it has sent is the read request with that
    cookie in its [Cookie] header. *)
Theorem async_get_raw_data_presents_cookie
    (network : list request -> request -> reply)
    (json_loads : string -> option pyval) (st st' : state) (v : pyval) :
  async_get_raw_data network json_loads st = (Returns v, st') ->
  exists cookie,
    _session_cookie (self st') = Some cookie
    /\ cookie ≠ ""
    /\ last (sent st') = Some (read_request (self st'))
    /\ req_headers (read_request (self st')) !! "Cookie" = Some cookie.
Proof.
  intros Hrun. apply loop_returns_from_func in Hrun as [s0 Hf].
  apply async_get_raw_data_func_returns in Hf as [Hc Hlast].
  destruct (_session_cookie (self st')) as [[|a cookie]|] eqn:Hcookie;
    [done| |done].
  exists (String a cookie). repeat split; [done|done|].
  unfold read_request. cbn. rewrite Hcookie. apply lookup_insert_eq.
Qed.

(** A first read on a client without a cookie, against a device that
    accepts the login. *)
Lemma async_get_raw_data_presents_cookie_witness :
  let network := device (Reply (Response 200 no_headers floor_1_text)) in
  let st' := (async_get_raw_data network test_loads own_client).2 in
  exists cookie,
    _session_cookie (self st') = Some cookie
    /\ cookie ≠ ""
    /\ last (sent st') = Some (read_request (self st'))
    /\ req_headers (read_request (self st')) !! "Cookie" = Some cookie.
Proof.
  intros network st'.
  apply (async_get_raw_data_presents_cookie network test_loads own_client st'
           (PyDict {[ "test" := PyStr "data" ]})).
  vm_compute. reflexivity.
Defined.

(** Read state on a client that holds no cookie (or an empty one) logs in
    first: when the device accepts the login and answers the read with a
    body that parses, the login request and then the read request go out,
    the read request carries the new cookie, the cookie is stored, and the
    result is that of the navigation of the parsed body. *)
Theorem async_get_raw_data_bootstrap
    (network : list request -> request -> reply)
    (json_loads : string -> option pyval)
    (st : state) (session : session_ref) (login_resp resp : response)
    (cookie : string) (data v : pyval) :
  _session (self st) = Some session ->
  sessions st !! session = Some false ->
  opt_str_truthy (_session_cookie (self st)) = false ->
  network (sent st) (login_request (self st)) = Reply login_resp ->
  resp_status login_resp = 302 ->
  resp_headers_get login_resp "Set-Cookie" = Some cookie ->
  cookie ≠ "" ->
  let st1 :=
    assign_session_cookie cookie (record_sent (login_request (self st)) st) in
  let st2 := record_sent (read_request (self st1)) st1 in
  network (sent st1) (read_request (self st1)) = Reply resp ->
  json_loads (resp_text resp) = Some data ->
  navigate data st2 = (Returns v, st2) ->
  async_get_raw_data network json_loads st = (Returns v, st2)
  /\ sent st2 = (sent st ++ [login_request (self st); read_request (self st1)])%list
  /\ req_headers (read_request (self st1)) !! "Cookie" = Some cookie
  /\ _session_cookie (self st2) = Some cookie.
Proof.
  intros Hs Ho Hc Hl H302 Hh Hne st1 st2 Hr Hj Hnav.
  assert (Hlogin : async_login network st
                   = (Returns cookie, record_sent (login_request (self st)) st)).
  { unfold async_login. rewrite (_async_login_run network st session Hs Ho).
    cbn zeta. rewrite Hl, bool_decide_eq_false_2, Hh by (intros ?; done).
    by destruct cookie. }
  assert (Hready : ready_to_read network st st1) by (by eapply cookie_fetched).
  split; [|split; [|split]].
  - apply reauth_retry_returns_3.
    rewrite (async_get_raw_data_func_run network json_loads st st1 session
               Hs Hready Ho).
    cbn zeta. fold st2. by rewrite Hr, Hj, Hnav.
  - cbn. by rewrite <- app_assoc.
  - cbn. apply lookup_insert_eq.
  - done.
Qed.

(** The first read of a new client. *)
Lemma async_get_raw_data_bootstrap_witness :
  let network := device (Reply (Response 200 no_headers floor_1_text)) in
  let st1 :=
    assign_session_cookie "session=123"
      (record_sent (login_request (self own_client)) own_client) in
  let st2 := record_sent (read_request (self st1)) st1 in
  async_get_raw_data network test_loads own_client
  = (Returns (PyDict {[ "test" := PyStr "data" ]}), st2)
  /\ sent st2
     = (sent own_client
        ++ [login_request (self own_client); read_request (self st1)])%list
  /\ req_headers (read_request (self st1)) !! "Cookie" = Some "session=123"
  /\ _session_cookie (self st2) = Some "session=123".
Proof.
  intros network st1 st2.
  apply (async_get_raw_data_bootstrap network test_loads own_client 0%nat
           login_ok (Response 200 no_headers floor_1_text) "session=123"
           floor_1_value (PyDict {[ "test" := PyStr "data" ]})).
  - reflexivity.
  - reflexivity.
  - reflexivity.
  - reflexivity.
  - reflexivity.
  - reflexivity.
  - discriminate.
  - reflexivity.
  - vm_compute. reflexivity.
  - vm_compute. reflexivity.
Defined.

(** When that first login fails, read state raises what the login raised:
    no read request goes out, no cookie is stored and nothing is retried. *)
Theorem async_get_raw_data_bootstrap_fails
    (network : list request -> request -> reply)
    (json_loads : string -> option pyval)
    (st st0 : state) (session : session_ref) (e : exn) :
  _session (self st) = Some session ->
  opt_str_truthy (_session_cookie (self st)) = false ->
  async_login network st = (Raises e, st0) ->
  async_get_raw_data network json_loads st = (Raises e, st0)
  /\ self st0 = self st
  /\ (sent st0 = sent st
      \/ sent st0 = (sent st ++ [login_request (self st)])%list).
Proof.
  intros Hs Hc Hlogin. split.
  - apply reauth_retry_propagates_3.
    + unfold async_get_raw_data_func.
      rewrite (bind_returns _ _ _ _ _ (require_session_some _ _ Hs)),
        bind_get, Hc. cbn [negb].
      assert (Hpre : bind (async_login network)
                       (fun c => modify (assign_session_cookie c)) st
                     = (Raises e, st0))
        by (by rewrite (bind_raises _ _ _ _ _ Hlogin)).
      by rewrite (bind_raises _ _ _ _ _ Hpre).
    + by eapply _async_login_never_expired.
  - revert Hlogin.
    unfold async_login, _async_login, require_session, self_session_post,
      ClientSession_post, try_except, bind, get, ret, raise.
    intros H. repeat (case_match; simplify_eq/=); eauto.
Qed.

(** A device that answers the login with status 500. *)
Lemma async_get_raw_data_bootstrap_fails_witness :
  let network := always (Reply (Response 500 no_headers "")) in
  let st0 := record_sent (login_request (self own_client)) own_client in
  async_get_raw_data network test_loads own_client
  = (Raises (Exn LoginFailedException ["Login failed with status 500"] None),
     st0)
  /\ self st0 = self own_client
  /\ (sent st0 = sent own_client
      \/ sent st0 = (sent own_client ++ [login_request (self own_client)])%list).
Proof.
  intros network st0.
  apply (async_get_raw_data_bootstrap_fails network test_loads own_client st0
           0%nat); reflexivity.
Defined.

(** One expiry: when the device answers the send request with status 200
    and an empty or white-space body, accepts the login that follows, and
    answers the second send request with a body that parses, the send
    primitive returns the parsed body; three requests have gone out (send,
    login, send), the second send carries the new cookie, and the new
    cookie is the one stored. *)
Theorem send_command_reauthenticates
    (network : list request -> request -> reply)
    (json_loads : string -> option pyval) (json_dumps : pyval -> string)
    (payload : pyval) (st : state) (session : session_ref)
    (blank login_resp resp : response) (cookie : string) (v : pyval) :
  is_dict payload = true ->
  _session (self st) = Some session ->
  sessions st !! session = Some false ->
  let req1 := send_request json_dumps (self st) payload in
  let sa := record_sent req1 st in
  let sb := record_sent (login_request (self st)) sa in
  let sc := assign_session_cookie cookie sb in
  let req2 := send_request json_dumps (self sc) payload in
  let sd := record_sent req2 sc in
  network (sent st) req1 = Reply blank ->
  resp_status blank = 200 ->
  whitespace_only (resp_text blank) = true ->
  network (sent sa) (login_request (self st)) = Reply login_resp ->
  resp_status login_resp = 302 ->
  resp_headers_get login_resp "Set-Cookie" = Some cookie ->
  cookie ≠ "" ->
  network (sent sc) req2 = Reply resp ->
  resp_status resp = 200 ->
  whitespace_only (resp_text resp) = false ->
  json_loads (resp_text resp) = Some v ->
  _async_send_command network json_loads json_dumps payload st = (Returns v, sd)
  /\ sent sd = (sent st ++ [req1; login_request (self st); req2])%list
  /\ req_headers req2 !! "Cookie" = Some cookie
  /\ _session_cookie (self sd) = Some cookie.
Proof.
  intros Hd Hs Ho req1 sa sb sc req2 sd
    Hn1 Hst1 Hw1 Hn2 Hst2 Hh Hne Hn3 Hst3 Hw3 Hj.
  assert (Hf1 : _async_send_command_func network json_loads json_dumps payload st
                = (Raises (Exn SessionExpiredException [] None), sa)).
  { rewrite (_async_send_command_func_run network json_loads json_dumps
               st session payload Hd Hs Ho).
    cbn zeta. fold req1.
    by rewrite Hn1, bool_decide_eq_false_2, Hw1 by (intros ?; done). }
  assert (Hl : _async_login network sa = (Returns cookie, sb)).
  { rewrite (_async_login_run network sa session Hs Ho).
    cbn zeta. change (self sa) with (self st).
    rewrite Hn2, bool_decide_eq_false_2, Hh by (intros ?; done).
    by destruct cookie. }
  assert (Hf2 : _async_send_command_func network json_loads json_dumps payload sc
                = (Returns v, sd)).
  { rewrite (_async_send_command_func_run network json_loads json_dumps
               sc session payload Hd Hs Ho).
    cbn zeta. fold req2.
    by rewrite Hn3, bool_decide_eq_false_2, Hw3, Hj by (intros ?; done). }
  split; [|split; [|split]].
  - unfold _async_send_command, reauth_retry, wrapper.
    change (py_range (3 + 1)) with [0; 1; 2; 3].
    rewrite (loop_retries _ _ _ _ _ _ _ _ _ cookie sb Hf1); [|done|lia|done].
    by apply loop_returns.
  - cbn. by rewrite <- !app_assoc.
  - unfold req2, send_request. cbn.
    destruct cookie; [done|]. cbn. apply lookup_insert_eq.
  - done.
Qed.

(** A client with a stale cookie against a device that answers with an
    empty body until it has seen a login. *)
Lemma send_command_reauthenticates_witness :
  let network := stale_device (Reply (Response 200 no_headers success_text)) in
  let st := logged_in own_client in
  let req1 := send_request test_dumps (self st) (PyDict ∅) in
  let sc :=
    assign_session_cookie "session=123"
      (record_sent (login_request (self st)) (record_sent req1 st)) in
  let req2 := send_request test_dumps (self sc) (PyDict ∅) in
  _async_send_command network test_loads test_dumps (PyDict ∅) st
  = (Returns success_value, record_sent req2 sc)
  /\ sent (record_sent req2 sc)
     = (sent st ++ [req1; login_request (self st); req2])%list
  /\ req_headers req2 !! "Cookie" = Some "session=123"
  /\ _session_cookie (self (record_sent req2 sc)) = Some "session=123".
Proof.
  intros network st req1 sc req2.
  apply (send_command_reauthenticates network test_loads test_dumps (PyDict ∅)
           st 0%nat (Response 200 no_headers "") login_ok
           (Response 200 no_headers success_text) "session=123" success_value).
  - reflexivity.
  - reflexivity.
  - reflexivity.
  - reflexivity.
  - reflexivity.
  - reflexivity.
  - reflexivity.
  - reflexivity.
  - reflexivity.
  - discriminate.
  - reflexivity.
  - reflexivity.
  - vm_compute. reflexivity.
  - vm_compute. reflexivity.
Defined.

(** The loop over the attempts [first, ..., first + more] when, in the
    states an invariant describes, the operation raises
    [SessionExpiredException] and the login returns. *)
Lemma loop_always_expired_inv {St T} (login : M St string)
    (set_cookie : string -> St -> St) (func : M St T)
    (calls logins : St -> nat) (Inv : St -> Prop) (e : exn)
    (max_retries : Z) (more : nat) :
  exn_cls e = SessionExpiredException ->
  (forall s, Inv s -> exists s',
      func s = (Raises e, s') /\ Inv s'
      /\ calls s' = S (calls s) /\ logins s' = logins s) ->
  (forall s, Inv s -> exists cookie s',
      login s = (Returns cookie, s') /\ Inv s'
      /\ logins s' = S (logins s) /\ calls s' = calls s) ->
  (forall cookie s, Inv s ->
      Inv (set_cookie cookie s)
      /\ calls (set_cookie cookie s) = calls s
      /\ logins (set_cookie cookie s) = logins s) ->
  forall (first : nat) s,
    Inv s ->
    Z.of_nat (first + more) = max_retries ->
    exists s',
      wrapper_loop login set_cookie max_retries func
        (Z.of_nat <$> seq first (S more)) s
      = (Raises (Exn ApiCallFailedException
                   [max_retries_message max_retries] (Some e)), s')
      /\ calls s' = (calls s + more + 1)%nat
      /\ logins s' = (logins s + more)%nat.
Proof.
  intros Hcls Hfunc Hlogin Hset.
  induction more as [|more IH]; intros first s Hinv Hn.
  - destruct (Hfunc s Hinv) as (s1 & Hf & _ & Hc & Hl).
    exists s1. cbn [seq fmap list_fmap].
    rewrite (loop_gives_up _ _ _ _ _ _ _ _ _ Hf Hcls) by lia.
    split; [done|]. split; lia.
  - destruct (Hfunc s Hinv) as (s1 & Hf & Hinv1 & Hc & Hl).
    destruct (Hlogin s1 Hinv1) as (cookie & s2 & Hlog & Hinv2 & Hl2 & Hc2).
    destruct (Hset cookie s2 Hinv2) as (Hinv3 & Hc3 & Hl3).
    destruct (IH (S first) (set_cookie cookie s2) Hinv3) as (s' & Hrun & ?);
      [lia|].
    exists s'.
    change (seq first (S (S more))) with (first :: seq (S first) (S more)).
    rewrite fmap_cons.
    rewrite (loop_retries _ _ _ _ _ _ _ _ _ cookie s2 Hf Hcls); [|lia|done].
    rewrite Hrun. intuition lia.
Qed.

Lemma data_sent_record_sent req st :
  data_sent (record_sent req st)
  = (data_sent st + if req_allow_redirects req then 1 else 0)%nat.
Proof.
  unfold data_sent, record_sent. cbn. rewrite List.filter_app, length_app.
  cbn. by destruct (req_allow_redirects req).
Qed.

Lemma logins_sent_record_sent req st :
  logins_sent (record_sent req st)
  = (logins_sent st + if req_allow_redirects req then 0 else 1)%nat.
Proof.
  unfold logins_sent, record_sent, is_login_request. cbn.
  rewrite List.filter_app, length_app. cbn.
  by destruct (req_allow_redirects req).
Qed.

(** The budget of the send primitive is three: against a device that
    answers every request to the data endpoint with status 200 and an
    empty or white-space body and accepts every login, it gives up with
    [ApiCallFailedException] (caused by the last [SessionExpiredException])
    after exactly four send requests and three logins. *)
Theorem send_command_gives_up
    (network : list request -> request -> reply)
    (json_loads : string -> option pyval) (json_dumps : pyval -> string)
    (payload : pyval) (st : state) (session : session_ref) :
  is_dict payload = true ->
  _session (self st) = Some session ->
  sessions st !! session = Some false ->
  (forall log req, req_allow_redirects req = true ->
     exists resp, network log req = Reply resp
       /\ resp_status resp = 200 /\ whitespace_only (resp_text resp) = true) ->
  (forall log req, req_allow_redirects req = false ->
     exists resp cookie, network log req = Reply resp
       /\ resp_status resp = 302
       /\ resp_headers_get resp "Set-Cookie" = Some cookie /\ cookie ≠ "") ->
  exists st',
    _async_send_command network json_loads json_dumps payload st
    = (Raises (Exn ApiCallFailedException
                 ["Max re-authentication attempts (3) reached."]
                 (Some (Exn SessionExpiredException [] None))), st')
    /\ data_sent st' = (data_sent st + 4)%nat
    /\ logins_sent st' = (logins_sent st + 3)%nat.
Proof.
  intros Hd Hs Ho Hdata Hlogin.
  set (Inv := fun s : state =>
         _session (self s) = Some session /\ sessions s !! session = Some false).
  destruct (loop_always_expired_inv (_async_login network) assign_session_cookie
              (_async_send_command_func network json_loads json_dumps payload)
              data_sent logins_sent Inv (Exn SessionExpiredException [] None)
              3 3) with (first := 0%nat) (s := st)
    as (st' & Hrun & Hc & Hl); try done.
  - intros s [Hs1 Ho1].
    destruct (Hdata (sent s) (send_request json_dumps (self s) payload))
      as (resp & Hn & Hst & Hw); [done|].
    eexists. split; [|split; [|split]].
    + rewrite (_async_send_command_func_run network json_loads json_dumps
                 s session payload Hd Hs1 Ho1).
      cbn zeta.
      by rewrite Hn, bool_decide_eq_false_2, Hw by (intros ?; done).
    + done.
    + rewrite data_sent_record_sent. cbn. lia.
    + rewrite logins_sent_record_sent. cbn. lia.
  - intros s [Hs1 Ho1].
    destruct (Hlogin (sent s) (login_request (self s)))
      as (resp & cookie & Hn & Hst & Hh & Hne); [done|].
    eexists cookie, _. split; [|split; [|split]].
    + rewrite (_async_login_run network s session Hs1 Ho1).
      cbn zeta.
      rewrite Hn, bool_decide_eq_false_2, Hh by (intros ?; done).
      by destruct cookie.
    + done.
    + rewrite logins_sent_record_sent. cbn. lia.
    + rewrite data_sent_record_sent. cbn. lia.
  - exists st'. split; [|lia].
    unfold _async_send_command, reauth_retry, wrapper.
    change (py_range (3 + 1)) with (Z.of_nat <$> seq 0 4). exact Hrun.
Qed.

(** The unit test [test_send_command_expired_session]: the body is always
    empty. *)
Lemma send_command_gives_up_witness :
  exists st',
    _async_send_command (device (Reply (Response 200 no_headers ""))) test_loads
      test_dumps (PyDict ∅) (logged_in own_client)
    = (Raises (Exn ApiCallFailedException
                 ["Max re-authentication attempts (3) reached."]
                 (Some (Exn SessionExpiredException [] None))), st')
    /\ data_sent st' = (data_sent (logged_in own_client) + 4)%nat
    /\ logins_sent st' = (logins_sent (logged_in own_client) + 3)%nat.
Proof.
  apply (send_command_gives_up (device (Reply (Response 200 no_headers "")))
           test_loads test_dumps (PyDict ∅) (logged_in own_client) 0%nat).
  - reflexivity.
  - reflexivity.
  - reflexivity.
  - intros log req Hr. eexists. unfold device. rewrite Hr.
    repeat split; reflexivity.
  - intros log req Hr. eexists _, _. unfold device. rewrite Hr.
    repeat split; [reflexivity..|discriminate].
Defined.

(** Read state on a body that parses but has not the expected shape: a
    body that is not a JSON object, or a [FloorData[0]] that is not one,
    raises [AttributeError]; a [FloorData] that is a JSON object raises
    [KeyError]; a [FloorData] that is null raises [TypeError].  None of them
    is caught or retried: each reaches the caller after the one request. *)
Theorem async_get_raw_data_unexpected_shape
    (network : list request -> request -> reply)
    (json_loads : string -> option pyval)
    (st st1 : state) (session : session_ref) (resp : response) (data : pyval) :
  _session (self st) = Some session ->
  sessions st !! session = Some false ->
  ready_to_read network st st1 ->
  network (sent st1) (read_request (self st1)) = Reply resp ->
  json_loads (resp_text resp) = Some data ->
  let st' := record_sent (read_request (self st1)) st1 in
  let no_get (v : pyval) :=
    Exn (OtherException "AttributeError")
      ["'" ++ type_name v ++ "' object has no attribute 'get'"] None in
  (is_dict data = false ->
   async_get_raw_data network json_loads st = (Raises (no_get data), st'))
  /\ (forall d g, data = PyDict d -> d !! "GetResGroupData" = Some (PyDict g) ->
        (forall x rest,
            g !! "FloorData" = Some (PyList (x :: rest)) -> is_dict x = false ->
            async_get_raw_data network json_loads st = (Raises (no_get x), st'))
        /\ (forall floors,
              g !! "FloorData" = Some (PyDict floors) ->
              async_get_raw_data network json_loads st
              = (Raises (Exn (OtherException "KeyError") ["0"] None), st'))
        /\ (g !! "FloorData" = Some PyNone ->
            async_get_raw_data network json_loads st
            = (Raises (Exn (OtherException "TypeError")
                         ["'NoneType' object is not subscriptable"] None), st'))).
Proof.
  intros Hs Ho Hready Hn Hj st' no_get.
  destruct (ready_to_read_sessions _ _ _ Hready) as [Hss _].
  assert (Hrun : async_get_raw_data_func network json_loads st
                 = ((navigate data st').1, st')).
  { rewrite (async_get_raw_data_func_run network json_loads st st1 session
               Hs Hready) by (by rewrite Hss).
    cbn zeta. by rewrite Hn, Hj. }
  split; [|intros d g -> Hg; split; [|split]].
  - intros Hd. apply reauth_retry_propagates_3; [|done].
    rewrite Hrun. by destruct data.
  - intros x rest Hf Hx. apply reauth_retry_propagates_3; [|done].
    rewrite Hrun. unfold navigate, py_get at 1. rewrite bind_ret, Hg.
    cbn [from_option id]. unfold py_get at 1. rewrite bind_ret, Hf.
    cbn [from_option id py_getitem_0 lookup list_lookup]. rewrite bind_ret.
    by destruct x.
  - intros floors Hf. apply reauth_retry_propagates_3; [|done].
    rewrite Hrun. unfold navigate, py_get at 1. rewrite bind_ret, Hg.
    cbn [from_option id]. unfold py_get at 1. by rewrite bind_ret, Hf.
  - intros Hf. apply reauth_retry_propagates_3; [|done].
    rewrite Hrun. unfold navigate, py_get at 1. rewrite bind_ret, Hg.
    cbn [from_option id]. unfold py_get at 1. by rewrite bind_ret, Hf.
Qed.

(** A body that is a JSON list: the body of [no_floors_text] read by a
    codec that takes every text for the empty list. *)
Lemma async_get_raw_data_unexpected_shape_witness :
  let network := device (Reply (Response 200 no_headers "[]")) in
  let st := logged_in own_client in
  async_get_raw_data network (fun _ => Some (PyList [])) st
  = (Raises (Exn (OtherException "AttributeError")
               ["'list' object has no attribute 'get'"] None),
     record_sent (read_request (self st)) st).
Proof.
  intros network st.
  refine (proj1 (async_get_raw_data_unexpected_shape network
                   (fun _ => Some (PyList [])) st st 0%nat
                   (Response 200 no_headers "[]") (PyList []) _ _ _ _ _) _).
  - reflexivity.
  - reflexivity.
  - apply cookie_held. reflexivity.
  - reflexivity.
  - reflexivity.
  - reflexivity.
Defined.

(** [async_set_group_property] sends the properties under
    [SetReqChangeGroup] with a [GroupNo]: the one of the properties when
    they have one, and the argument [group_no] otherwise; every other
    property goes out as given.  With a session and an answer of status 200
    that parses, that is the one request sent, and the parsed body is the
    result. *)
Theorem async_set_group_property_request
    (network : list request -> request -> reply)
    (json_loads : string -> option pyval) (json_dumps : pyval -> string)
    (group_no : string) (properties : gmap string pyval)
    (st : state) (session : session_ref) :
  _session (self st) = Some session ->
  sessions st !! session = Some false ->
  exists payload : gmap string pyval,
    payload !! "GroupNo"
    = Some (from_option id (PyStr group_no) (properties !! "GroupNo"))
    /\ (forall key, key ≠ "GroupNo" -> payload !! key = properties !! key)
    /\ forall resp v,
        let req :=
          send_request json_dumps (self st)
            (PyDict {[ "SetReqChangeGroup" := PyDict payload ]}) in
        network (sent st) req = Reply resp ->
        resp_status resp = 200 ->
        whitespace_only (resp_text resp) = false ->
        json_loads (resp_text resp) = Some v ->
        async_set_group_property network json_loads json_dumps group_no
          properties st
        = (Returns v, record_sent req st).
Proof.
  intros Hs Ho. unfold async_set_group_property.
  set (payload := match properties !! "GroupNo" with
                  | Some _ => properties
                  | None => <["GroupNo" := PyStr group_no]> properties
                  end).
  exists payload. split; [|split].
  - unfold payload. destruct (properties !! "GroupNo") eqn:Hg; [done|].
    apply lookup_insert_eq.
  - intros key Hkey. unfold payload.
    destruct (properties !! "GroupNo"); [done|]. by apply lookup_insert_ne.
  - intros resp v. cbn zeta. intros Hn Hst Hw Hj.
    apply reauth_retry_returns_3.
    rewrite (_async_send_command_func_run network json_loads json_dumps
               st session (PyDict {[ "SetReqChangeGroup" := PyDict payload ]})
               eq_refl Hs Ho).
    cbn zeta.
    by rewrite Hn, bool_decide_eq_false_2, Hw, Hj by (intros ?; done).
Qed.

(** Group 3 set to a temperature: the payload gets [GroupNo] 3. *)
Lemma async_set_group_property_request_witness :
  exists payload : gmap string pyval,
    payload !! "GroupNo"
    = Some (from_option id (PyStr "3")
              (({[ "SetTemp" := PyStr "24" ]} : gmap string pyval) !! "GroupNo"))
    /\ (forall key, key ≠ "GroupNo" ->
          payload !! key
          = ({[ "SetTemp" := PyStr "24" ]} : gmap string pyval) !! key)
    /\ forall resp v,
        let req :=
          send_request test_dumps (self (logged_in own_client))
            (PyDict {[ "SetReqChangeGroup" := PyDict payload ]}) in
        device (Reply (Response 200 no_headers success_text))
          (sent (logged_in own_client)) req = Reply resp ->
        resp_status resp = 200 ->
        whitespace_only (resp_text resp) = false ->
        test_loads (resp_text resp) = Some v ->
        async_set_group_property
          (device (Reply (Response 200 no_headers success_text)))
          test_loads test_dumps "3" {[ "SetTemp" := PyStr "24" ]}
          (logged_in own_client)
        = (Returns v, record_sent req (logged_in own_client)).
Proof.
  apply (async_set_group_property_request
           (device (Reply (Response 200 no_headers success_text)))
           test_loads test_dumps "3" {[ "SetTemp" := PyStr "24" ]}
           (logged_in own_client) 0%nat); reflexivity.
Defined.

(** [async_set_all_property] sends the properties as they are under
    [SetReqChangeAll]: no [GroupNo] is added.  With a session and an answer
    of status 200 that parses, that is the one request sent, and the parsed
    body is the result. *)
Theorem async_set_all_property_request
    (network : list request -> request -> reply)
    (json_loads : string -> option pyval) (json_dumps : pyval -> string)
    (properties : gmap string pyval)
    (st : state) (session : session_ref) (resp : response) (v : pyval) :
  _session (self st) = Some session ->
  sessions st !! session = Some false ->
  let req :=
    send_request json_dumps (self st)
      (PyDict {[ "SetReqChangeAll" := PyDict properties ]}) in
  network (sent st) req = Reply resp ->
  resp_status resp = 200 ->
  whitespace_only (resp_text resp) = false ->
  json_loads (resp_text resp) = Some v ->
  async_set_all_property network json_loads json_dumps properties st
  = (Returns v, record_sent req st).
Proof.
  intros Hs Ho req Hn Hst Hw Hj. apply reauth_retry_returns_3.
  rewrite (_async_send_command_func_run network json_loads json_dumps
             st session (PyDict {[ "SetReqChangeAll" := PyDict properties ]})
             eq_refl Hs Ho).
  cbn zeta. fold req.
  by rewrite Hn, bool_decide_eq_false_2, Hw, Hj by (intros ?; done).
Qed.

Lemma async_set_all_property_request_witness :
  let st := logged_in own_client in
  let req :=
    send_request test_dumps (self st)
      (PyDict {[ "SetReqChangeAll" := PyDict {[ "SetMode" := PyStr "1" ]} ]}) in
  async_set_all_property (device (Reply (Response 200 no_headers success_text)))
    test_loads test_dumps {[ "SetMode" := PyStr "1" ]} st
  = (Returns success_value, record_sent req st).
Proof.
  intros st req.
  apply (async_set_all_property_request
           (device (Reply (Response 200 no_headers success_text)))
           test_loads test_dumps {[ "SetMode" := PyStr "1" ]} st 0%nat
           (Response 200 no_headers success_text) success_value).
  - reflexivity.
  - reflexivity.
  - reflexivity.
  - reflexivity.
  - reflexivity.
  - vm_compute. reflexivity.
Defined.

(** [close_session] never raises and never talks to the device: it
    returns, the log of requests and the cookie are as before, no session
    other than the one the client holds is touched, and closing a second
    time changes nothing. *)
Theorem close_session_quiet_and_idempotent (st : state) :
  exists st',
    close_session st = (Returns tt, st')
    /\ sent st' = sent st
    /\ _session_cookie (self st') = _session_cookie (self st)
    /\ (forall other, _session (self st) ≠ Some other ->
          sessions st' !! other = sessions st !! other)
    /\ close_session st' = (Returns tt, st').
Proof.
  unfold close_session, bind, get, ClientSession_close, modify, ret.
  destruct (_session (self st)) as [session|] eqn:Hs.
  - destruct (_session_created_internally (self st)) eqn:Hi.
    + eexists. split; [done|]. cbn. repeat split.
      intros other Hne. apply lookup_insert_ne. congruence.
    + exists st. rewrite Hs, Hi. by repeat split.
  - exists st. rewrite Hs. by repeat split.
Qed.

(** Two clients that each made their own session hold different sessions,
    and closing the first leaves the session of the second open. *)
Theorem own_sessions_are_distinct
    (host1 user1 pass1 host2 user2 pass2 : string)
    (heap : gmap session_ref bool) (log : list request) :
  let first := __init__ host1 user1 pass1 None heap log in
  let second := __init__ host2 user2 pass2 None (sessions first) (sent first) in
  let first_in_shared_heap := State (self first) (sessions second) (sent second) in
  exists s1 s2,
    _session (self first) = Some s1
    /\ _session (self second) = Some s2
    /\ s1 ≠ s2
    /\ sessions second !! s1 = Some false
    /\ sessions second !! s2 = Some false
    /\ sessions (close_session first_in_shared_heap).2 !! s1 = Some true
    /\ sessions (close_session first_in_shared_heap).2 !! s2 = Some false.
Proof.
  intros first second shared.
  set (s1 := fresh (dom heap)).
  set (s2 := fresh (dom (<[s1 := false]> heap))).
  assert (Hne : s1 ≠ s2).
  { intros Heq. apply (is_fresh (dom (<[s1 := false]> heap))).
    fold s2. rewrite <- Heq. apply elem_of_dom. rewrite lookup_insert_eq.
    by eexists. }
  exists s1, s2. cbn. fold s1. fold s2.
  repeat split; try done.
  - rewrite lookup_insert_ne by done. apply lookup_insert_eq.
  - apply lookup_insert_eq.
  - rewrite lookup_insert_eq. done.
  - rewrite lookup_insert_ne by done. apply lookup_insert_eq.
Qed.

(** With a budget of zero there is one attempt and no login: a
    [SessionExpiredException] of the operation becomes the cause of an
    [ApiCallFailedException] at once, in the state the operation left,
    whatever the login would do. *)
Theorem reauth_retry_zero_budget
    {St T : Type} (login : M St string) (set_cookie : string -> St -> St)
    (func : M St T) (s s' : St) (e : exn) :
  func s = (Raises e, s') ->
  exn_cls e = SessionExpiredException ->
  reauth_retry login set_cookie 0 func s
  = (Raises (Exn ApiCallFailedException
               ["Max re-authentication attempts (0) reached."] (Some e)), s').
Proof.
  intros Hf Hcls. unfold reauth_retry, wrapper.
  change (py_range (0 + 1)) with [0].
  by rewrite (loop_gives_up _ _ _ _ _ _ _ _ _ Hf Hcls) by lia.
Qed.

Lemma reauth_retry_zero_budget_witness :
  reauth_retry mock_login mock_set_cookie 0 mock_func_expired (Mock 0 0 None)
  = (Raises (Exn ApiCallFailedException
               ["Max re-authentication attempts (0) reached."]
               (Some (Exn SessionExpiredException [] None))),
     Mock 1 0 None).
Proof.
  apply (reauth_retry_zero_budget mock_login mock_set_cookie mock_func_expired
           (Mock 0 0 None) (Mock 1 0 None)); reflexivity.
Defined.

(** What the loop does after its first attempt is kept from the state that
    attempt left. *)
Lemma loop_after_first_attempt {St T} (R : St -> St -> Prop) `{!PreOrder R}
    (login : M St string) (set_cookie : string -> St -> St) (max_retries : Z)
    (func : M St T) attempt rest s o s' :
  keeps R func -> keeps R login -> (forall c s0, R s0 (set_cookie c s0)) ->
  wrapper_loop login set_cookie max_retries func (attempt :: rest) s = (o, s') ->
  exists o1 s1, func s = (o1, s1) /\ R s1 s'.
Proof.
  intros Hfunc Hlogin Hset. cbn [wrapper_loop]. unfold try_except.
  destruct (func s) as [[v|e] s1] eqn:Hf.
  - intros [= <- <-]. by eexists _, _.
  - destruct (is_session_expired e).
    + intros Hrun. eexists _, _. split; [done|].
      revert Hrun. unfold on_session_expired. case_bool_decide.
      * apply keeps_bind; [done..|]. intros c.
        apply keeps_bind; [done|by apply keeps_modify|]. intros _.
        by apply keeps_wrapper_loop.
      * by apply keeps_raise.
    + intros [= <- <-]. by eexists _, _.
Qed.

(** The send primitive does not log in before its first request, unlike
    read state: with a session and a [dict] payload, whatever the device
    answers, the first request that goes out is the send request, with the
    stored cookie in its [Cookie] header when one is stored and with no
    [Cookie] header when none is. *)
Theorem send_command_first_request
    (network : list request -> request -> reply)
    (json_loads : string -> option pyval) (json_dumps : pyval -> string)
    (payload : pyval) (st st' : state) (session : session_ref)
    (o : outcome pyval) :
  is_dict payload = true ->
  _session (self st) = Some session ->
  sessions st !! session = Some false ->
  _async_send_command network json_loads json_dumps payload st = (o, st') ->
  let req := send_request json_dumps (self st) payload in
  (sent st ++ [req])%list `prefix_of` sent st'
  /\ req_headers req !! "Cookie"
     = (if opt_str_truthy (_session_cookie (self st))
        then _session_cookie (self st) else None).
Proof.
  intros Hd Hs Ho Hrun req. split.
  - unfold _async_send_command, reauth_retry, wrapper in Hrun.
    change (py_range (3 + 1)) with [0; 1; 2; 3] in Hrun.
    eapply (loop_after_first_attempt only_talks) in Hrun as (o1 & s1 & Hf & Hk).
    + rewrite (_async_send_command_func_run network json_loads json_dumps
                 st session payload Hd Hs Ho) in Hf.
      cbn zeta in Hf. fold req in Hf.
      assert (s1 = record_sent req st) as ->.
      { revert Hf. repeat case_match; by intros [= _ <-]. }
      by destruct Hk as (_ & _ & Hp).
    + apply keeps_async_send_command_func.
    + apply keeps_async_login.
    + intros c s0. apply only_talks_assign.
  - unfold req, send_request. cbn.
    destruct (_session_cookie (self st)) as [[|a c]|]; cbn; try done;
      apply lookup_insert_eq.
Qed.

(** A new client sends its first command without a cookie. *)
Lemma send_command_first_request_witness :
  let network := device (Reply (Response 200 no_headers success_text)) in
  let req := send_request test_dumps (self own_client) (PyDict ∅) in
  (sent own_client ++ [req])%list
    `prefix_of` sent (_async_send_command network test_loads test_dumps
                        (PyDict ∅) own_client).2
  /\ req_headers req !! "Cookie"
     = (if opt_str_truthy (_session_cookie (self own_client))
        then _session_cookie (self own_client) else None).
Proof.
  intros network req.
  apply (send_command_first_request network test_loads test_dumps (PyDict ∅)
           own_client _ 0%nat (Returns success_value)).
  - reflexivity.
  - reflexivity.
  - reflexivity.
  - vm_compute. reflexivity.
Defined.

(** One expiry on read: when the device answers the read request with a
    body whose navigation raises [SessionExpiredException], accepts the
    login that follows, and answers the second read request with a body
    whose navigation returns, read state returns that result; three
    requests have gone out (read, login, read), the second read carries the
    new cookie, and the new cookie is the one stored. *)
Theorem async_get_raw_data_reauthenticates
    (network : list request -> request -> reply)
    (json_loads : string -> option pyval)
    (st : state) (session : session_ref)
    (stale login_resp resp : response) (cookie : string)
    (stale_data data v : pyval) (e : exn) :
  _session (self st) = Some session ->
  sessions st !! session = Some false ->
  opt_str_truthy (_session_cookie (self st)) = true ->
  let req1 := read_request (self st) in
  let sa := record_sent req1 st in
  let sb := record_sent (login_request (self st)) sa in
  let sc := assign_session_cookie cookie sb in
  let req2 := read_request (self sc) in
  let sd := record_sent req2 sc in
  network (sent st) req1 = Reply stale ->
  json_loads (resp_text stale) = Some stale_data ->
  navigate stale_data sa = (Raises e, sa) ->
  exn_cls e = SessionExpiredException ->
  network (sent sa) (login_request (self st)) = Reply login_resp ->
  resp_status login_resp = 302 ->
  resp_headers_get login_resp "Set-Cookie" = Some cookie ->
  cookie ≠ "" ->
  network (sent sc) req2 = Reply resp ->
  json_loads (resp_text resp) = Some data ->
  navigate data sd = (Returns v, sd) ->
  async_get_raw_data network json_loads st = (Returns v, sd)
  /\ sent sd = (sent st ++ [req1; login_request (self st); req2])%list
  /\ req_headers req2 !! "Cookie" = Some cookie
  /\ _session_cookie (self sd) = Some cookie.
Proof.
  intros Hs Ho Hc req1 sa sb sc req2 sd
    Hn1 Hj1 Hnav1 Hcls Hn2 Hst2 Hh Hne Hn3 Hj3 Hnav3.
  assert (Hf1 : async_get_raw_data_func network json_loads st = (Raises e, sa)).
  { rewrite (async_get_raw_data_func_run network json_loads st st session
               Hs (cookie_held _ _ Hc) Ho).
    cbn zeta. fold req1 sa. by rewrite Hn1, Hj1, Hnav1. }
  assert (Hl : _async_login network sa = (Returns cookie, sb)).
  { rewrite (_async_login_run network sa session Hs Ho).
    cbn zeta. change (self sa) with (self st).
    rewrite Hn2, bool_decide_eq_false_2, Hh by (intros ?; done).
    by destruct cookie. }
  assert (Hc2 : opt_str_truthy (_session_cookie (self sc)) = true)
    by (by destruct cookie).
  assert (Hf2 : async_get_raw_data_func network json_loads sc = (Returns v, sd)).
  { rewrite (async_get_raw_data_func_run network json_loads sc sc session
               Hs (cookie_held _ _ Hc2) Ho).
    cbn zeta. fold req2 sd. by rewrite Hn3, Hj3, Hnav3. }
  split; [|split; [|split]].
  - unfold async_get_raw_data, reauth_retry, wrapper.
    change (py_range (3 + 1)) with [0; 1; 2; 3].
    rewrite (loop_retries _ _ _ _ _ _ _ _ _ cookie sb Hf1); [|done|lia|done].
    by apply loop_returns.
  - cbn. by rewrite <- !app_assoc.
  - cbn. apply lookup_insert_eq.
  - done.
Qed.

(** A client with a stale cookie: the device answers with [FloorNo] -1
    until it has seen a login. *)
Lemma async_get_raw_data_reauthenticates_witness :
  let network :=
    expiring_device (Reply (Response 200 no_headers expired_text))
      (Reply (Response 200 no_headers floor_1_text)) in
  let st := logged_in own_client in
  let req1 := read_request (self st) in
  let sc :=
    assign_session_cookie "session=123"
      (record_sent (login_request (self st)) (record_sent req1 st)) in
  let req2 := read_request (self sc) in
  async_get_raw_data network test_loads_expiry st
  = (Returns (PyDict {[ "test" := PyStr "data" ]}), record_sent req2 sc)
  /\ sent (record_sent req2 sc)
     = (sent st ++ [req1; login_request (self st); req2])%list
  /\ req_headers req2 !! "Cookie" = Some "session=123"
  /\ _session_cookie (self (record_sent req2 sc)) = Some "session=123".
Proof.
  intros network st req1 sc req2.
  apply (async_get_raw_data_reauthenticates network test_loads_expiry st 0%nat
           (Response 200 no_headers expired_text) login_ok
           (Response 200 no_headers floor_1_text) "session=123"
           expired_value floor_1_value (PyDict {[ "test" := PyStr "data" ]})
           (Exn SessionExpiredException [] None)).
  - reflexivity.
  - reflexivity.
  - reflexivity.
  - reflexivity.
  - vm_compute. reflexivity.
  - vm_compute. reflexivity.
  - reflexivity.
  - reflexivity.
  - reflexivity.
  - reflexivity.
  - discriminate.
  - reflexivity.
  - vm_compute. reflexivity.
  - vm_compute. reflexivity.
Defined.
